(** * PTZ camera control and media ingest: a shallow embedding

    This development embeds two parts of the repository:

    - [Dispatcher]: the class [JennovCameraUltra] of
      [camera_control_ultra.py] (construction, the velocity table, the
      fire-and-forget move/stop/preset operations and the keep-alive loop);
    - [Ingest]: the class [VideoThread] of [camera_gui.py] (the frame
      reading loop with its reconnect logic, and the recording switch),
      together with the few [CameraGUI] handlers that guard the dispatcher.

    Python exceptions are values of [result]; side effects (HTTP requests,
    thread starts, sleeps, prints, sink writes) are recorded in a trace of
    [effect]s, in program order.  Speeds are Python floats; the velocity
    table only holds 0, 1.0 and -1.0, for which the float product with a
    speed is exact, so speeds are modelled as rationals [Q]. *)

From Stdlib Require Import QArith Qabs Lia Lqa.
From stdpp Require Import base option list strings gmap.

Local Open Scope string_scope.
Local Open Scope list_scope.

(** ** Exceptions and results *)

(** What makes a network call fail. *)
Inductive transport_failure :=
| Timeout
| ConnectionReset
| Unauthorized
| DeviceFault (reason : string).

Inductive exn :=
| KeyError (key : string)
| IndexError
| TransportError (f : transport_failure).

Inductive result (A : Type) :=
| Ok (a : A)
| Raise (e : exn).
Arguments Ok {A} a.
Arguments Raise {A} e.

(** ** A trace-and-state monad with exceptions

    [M E S A] is a computation over a mutable object of type [S] that
    records effects of type [E] and either returns an [A] or raises.  The
    object and the trace survive an exception, as in Python. *)
Module Mon.
Section Monad.
Context {E S : Type}.

Definition M (A : Type) : Type := S -> result A * S * list E.

Definition ret {A} (a : A) : M A := fun s => (Ok a, s, []).

Definition raise {A} (e : exn) : M A := fun s => (Raise e, s, []).

Definition bind {A B} (m : M A) (k : A -> M B) : M B :=
  fun s =>
    match m s with
    | (Ok a, s1, t1) =>
        match k a s1 with
        | (r, s2, t2) => (r, s2, t1 ++ t2)
        end
    | (Raise e, s1, t1) => (Raise e, s1, t1)
    end.

Definition get : M S := fun s => (Ok s, s, []).
Definition put (s' : S) : M unit := fun _ => (Ok tt, s', []).
Definition modify (f : S -> S) : M unit := fun s => (Ok tt, f s, []).
Definition emit (e : E) : M unit := fun s => (Ok tt, s, [e]).

(** An external call: the effect is recorded, the environment decides
    the outcome. *)
Definition call {A} (e : E) (outcome : result A) : M A :=
  fun s => (outcome, s, [e]).

(** [try: m except: pass] *)
Definition try_pass {A} (m : M A) : M unit :=
  fun s =>
    match m s with
    | (_, s1, t1) => (Ok tt, s1, t1)
    end.

(** [try: m except Exception as e: h e] *)
Definition try_except {A} (m : M A) (h : exn -> M A) : M A :=
  fun s =>
    match m s with
    | (Ok a, s1, t1) => (Ok a, s1, t1)
    | (Raise e, s1, t1) =>
        match h e s1 with
        | (r, s2, t2) => (r, s2, t1 ++ t2)
        end
    end.

(** [d[k]] on a Python dict *)
Definition getitem {V} (d : gmap string V) (k : string) : M V :=
  match d !! k with
  | Some v => ret v
  | None => raise (KeyError k)
  end.
End Monad.
End Mon.

Notation "x <- c1 ;; c2" := (Mon.bind c1 (fun x => c2))
  (at level 100, c1 at next level, right associativity).
Notation "c1 ;;; c2" := (Mon.bind c1 (fun _ => c2))
  (at level 100, right associativity).

Definition outcome_of {A S E} (r : result A * S * list E) : result A := r.1.1.
Definition state_of {A S E} (r : result A * S * list E) : S := r.1.2.
Definition trace_of {A S E} (r : result A * S * list E) : list E := r.2.

(** * The command dispatcher ([camera_control_ultra.py]) *)
Module Dispatcher.

(** ** Data *)

(** [{'PanTilt': {'x': _, 'y': _}, 'Zoom': {'x': _}}] *)
Record PanTiltV := { pt_x : Q; pt_y : Q }.
Record ZoomV := { z_x : Q }.
Record Velocity := { PanTilt : PanTiltV; Zoom : ZoomV }.

Definition vel (px py zx : Q) : Velocity :=
  {| PanTilt := {| pt_x := px; pt_y := py |}; Zoom := {| z_x := zx |} |}.

(** The filled-in SOAP templates of [_create_soap_templates]: the text is
    fixed, so an envelope is determined by the values put in the
    placeholders. *)
Inductive soap :=
| SoapMove (token : string) (pan tilt zoom : Q)
| SoapStop (token : string).

Record ContinuousMoveRequest := {
  cm_ProfileToken : string;
  cm_Velocity : option Velocity
}.

Record StopRequest := {
  st_ProfileToken : string;
  st_PanTilt : bool;
  st_Zoom : bool
}.

Record GotoPresetRequest := {
  gp_ProfileToken : string;
  gp_PresetToken : string;
  gp_Speed : Velocity
}.

Record url := { host : string; uport : Z; path : string }.

(** The target of a thread started by a dispatch operation. *)
Inductive task :=
| TaskSendRaw (soap_data : soap)
| TaskGotoPreset (request : GotoPresetRequest).

Inductive log_msg :=
| MsgConnecting (ip : string) (port : Z)
| MsgConnected (manufacturer model : string)
| MsgFirmware (version : string)
| MsgUsingProfile (token : string)
| MsgUltraMode
| MsgBanner (text : string).

Inductive effect :=
| Print (msg : log_msg)
| OnvifCamera (ip : string) (port : Z) (username password : string)
| GetDeviceInformation
| CreatePtzService
| CreateMediaService
| GetProfiles
| CreateType (name : string)
| PtzContinuousMove (request : ContinuousMoveRequest)
| PtzStop (request : StopRequest)
| PtzGotoPreset (request : GotoPresetRequest)
| SessionNew
| SessionPost (target : url) (data : soap) (timeout : Q)
| SessionHead (target : url) (timeout : Q)
| SessionClose
| Sleep (seconds : Q)
| ThreadStart (t : task)
| ThreadStartKeepAlive.

(** The attributes of a [JennovCameraUltra] object. *)
Record Self := {
  ip : string;
  port : Z;
  username : string;
  password : string;
  token : string;
  ptz_url : url;
  move_request : ContinuousMoveRequest;
  stop_request : StopRequest;
  velocities : gmap string Velocity;
  speed_multipliers : gmap string Q;
  keep_alive_active : bool
}.

Definition M := @Mon.M effect Self.

Definition set_move_request (r : ContinuousMoveRequest) (self : Self) : Self :=
  {| ip := ip self; port := port self; username := username self;
     password := password self; token := token self;
     ptz_url := ptz_url self;
     move_request := r;
     stop_request := stop_request self;
     velocities := velocities self;
     speed_multipliers := speed_multipliers self;
     keep_alive_active := keep_alive_active self |}.

Definition set_keep_alive_active (b : bool) (self : Self) : Self :=
  {| ip := ip self; port := port self; username := username self;
     password := password self; token := token self;
     ptz_url := ptz_url self;
     move_request := move_request self;
     stop_request := stop_request self;
     velocities := velocities self;
     speed_multipliers := speed_multipliers self;
     keep_alive_active := b |}.

(** The table assigned to [self.velocities] in [__init__]. *)
Definition velocities_table : gmap string Velocity :=
  list_to_map
    [ ("left",     vel (-1) 0 0);
      ("right",    vel 1 0 0);
      ("up",       vel 0 1 0);
      ("down",     vel 0 (-1) 0);
      ("zoom_in",  vel 0 0 1);
      ("zoom_out", vel 0 0 (-1)) ].

Definition speed_multipliers_table : gmap string Q :=
  list_to_map
    [ ("left", 1%Q); ("right", 1%Q); ("up", 1%Q);
      ("down", 1%Q); ("zoom_in", 1%Q); ("zoom_out", 1%Q) ].

(** ** Dispatch operations *)

(** [move_instant(direction, speed)] *)
Definition move_instant (direction : string) (speed : Q) : M unit :=
  self <- Mon.get ;;
  v <- Mon.getitem (velocities self) direction ;;
  let pan := (pt_x (PanTilt v) * speed)%Q in
  let tilt := (pt_y (PanTilt v) * speed)%Q in
  let zoom := (z_x (Zoom v) * speed)%Q in
  let soap := SoapMove (token self) pan tilt zoom in
  Mon.emit (ThreadStart (TaskSendRaw soap)).

(** [_send_raw(soap_data)]; [posted] is what [session.post] does. *)
Definition _send_raw {R} (posted : result R) (soap_data : soap) : M unit :=
  self <- Mon.get ;;
  Mon.try_pass
    (Mon.call (SessionPost (ptz_url self) soap_data (1 # 2)) posted).

(** [move_fast(direction, speed)]; [moved] is what [ptz.ContinuousMove]
    does. *)
Definition move_fast {R} (moved : result R) (direction : string) (speed : Q)
  : M unit :=
  self <- Mon.get ;;
  v <- Mon.getitem (velocities self) direction ;;
  let request :=
    {| cm_ProfileToken := cm_ProfileToken (move_request self);
       cm_Velocity :=
         Some (vel (pt_x (PanTilt v) * speed)
                   (pt_y (PanTilt v) * speed)
                   (z_x (Zoom v) * speed)) |} in
  Mon.put (set_move_request request self) ;;;
  Mon.try_pass (Mon.call (PtzContinuousMove request) moved).

(** [stop_instant()] *)
Definition stop_instant : M unit :=
  self <- Mon.get ;;
  Mon.emit (ThreadStart (TaskSendRaw (SoapStop (token self)))).

(** [stop()]; [stopped] is what [ptz.Stop] does. *)
Definition stop {R} (stopped : result R) : M unit :=
  self <- Mon.get ;;
  Mon.try_pass (Mon.call (PtzStop (stop_request self)) stopped).

(** [goto_preset(preset_token, speed=1.0)] *)
Definition goto_preset (preset_token : string) (speed : Q) : M unit :=
  self <- Mon.get ;;
  Mon.emit (CreateType "GotoPreset") ;;;
  let request :=
    {| gp_ProfileToken := token self;
       gp_PresetToken := preset_token;
       gp_Speed := vel speed speed speed |} in
  Mon.emit (ThreadStart (TaskGotoPreset request)).

(** ** Thread targets *)

(** What a thread started by a dispatch operation runs; [net] is the
    outcome of its one network call.  An exception that escapes the target
    ends that thread only. *)
Definition thread_target {R} (net : result R) (t : task) : M unit :=
  match t with
  | TaskSendRaw soap_data => _send_raw net soap_data
  | TaskGotoPreset request =>
      Mon.call (PtzGotoPreset request) net ;;; Mon.ret tt
  end.

Definition started_tasks (tr : list effect) : list task :=
  omap (fun e => match e with ThreadStart t => Some t | _ => None end) tr.

(** A dispatch operation followed by the threads it started, each run to
    its end against the network outcome [net].  The caller gets the
    operation's own outcome; the outcomes of the threads are returned
    beside it. *)
Definition dispatch_and_run {R} (net : result R) (op : M unit) (self : Self)
  : result unit * list (result unit) * list effect :=
  match op self with
  | (r, self1, tr) =>
      let runs := map (fun t => thread_target net t self1) (started_tasks tr) in
      (r, map outcome_of runs, tr ++ concat (map trace_of runs))
  end.

(** ** Keep-alive *)

(** What happens around the keep-alive thread: at each loop test either
    nothing changed and the probe of that round has outcome [probed], or
    [__del__] has run on another thread in the meantime. *)
Inductive ka_event {R : Type} :=
| KaRound (probed : result R)
| KaDel.
Arguments ka_event R : clear implicits.

Inductive loop_end := StillRunning | Returned.

Definition device_service (self : Self) : url :=
  {| host := ip self; uport := port self; path := "/onvif/device_service" |}.

(** [__del__()] *)
Definition __del__ : M unit :=
  self <- Mon.get ;;
  Mon.put (set_keep_alive_active false self) ;;;
  Mon.emit SessionClose.

(** [_keep_alive()], for as many rounds as the schedule has. *)
Fixpoint _keep_alive {R} (sched : list (ka_event R)) : M loop_end :=
  match sched with
  | [] => Mon.ret StillRunning
  | KaDel :: rest => __del__ ;;; _keep_alive rest
  | KaRound probed :: rest =>
      self <- Mon.get ;;
      if keep_alive_active self then
        Mon.emit (Sleep 30) ;;;
        Mon.try_pass (Mon.call (SessionHead (device_service self) 1) probed) ;;;
        _keep_alive rest
      else Mon.ret Returned
  end.

(** ** Convenience methods *)

(** The common body of [pan_left], [pan_right], [tilt_up], [tilt_down],
    [zoom_in] and [zoom_out], which differ in the direction only. *)
Definition timed_move (direction : string) (speed duration : Q) : M unit :=
  move_instant direction speed ;;;
  if Qlt_le_dec 0 duration
  then Mon.emit (Sleep duration) ;;; stop_instant
  else Mon.ret tt.

Definition pan_left := timed_move "left".

(** ** Construction *)

Record DeviceInfo := {
  Manufacturer : string;
  Model : string;
  FirmwareVersion : string
}.

Record Profile := { profile_token : string }.

(** The camera as the constructor meets it: the outcome of each round
    trip it makes. *)
Record Device := {
  connects : result unit;
  device_information : result DeviceInfo;
  ptz_service : result unit;
  media_service : result unit;
  profiles : result (list Profile)
}.

(** A computation that has no object yet. *)
Definition M0 := @Mon.M effect unit.

(** [__init__(ip, username, password, port=80)] *)
Definition __init__ (dev : Device) (ip username password : string) (port : Z)
  : M0 Self :=
  Mon.emit (Print (MsgConnecting ip port)) ;;;
  Mon.call (OnvifCamera ip port username password) (connects dev) ;;;
  info <- Mon.call GetDeviceInformation (device_information dev) ;;
  Mon.emit (Print (MsgConnected (Manufacturer info) (Model info))) ;;;
  Mon.emit (Print (MsgFirmware (FirmwareVersion info))) ;;;
  Mon.call CreatePtzService (ptz_service dev) ;;;
  Mon.call CreateMediaService (media_service dev) ;;;
  ps <- Mon.call GetProfiles (profiles dev) ;;
  p0 <- match ps with
        | [] => Mon.raise IndexError
        | p :: _ => Mon.ret p
        end ;;
  let token := profile_token p0 in
  Mon.emit (Print (MsgUsingProfile token)) ;;;
  let ptz_url := {| host := ip; uport := port; path := "/onvif/PTZ" |} in
  Mon.emit SessionNew ;;;
  Mon.emit (CreateType "ContinuousMove") ;;;
  Mon.emit (CreateType "Stop") ;;;
  Mon.emit ThreadStartKeepAlive ;;;
  Mon.emit (Print MsgUltraMode) ;;;
  Mon.ret
    {| ip := ip; port := port; username := username; password := password;
       token := token;
       ptz_url := ptz_url;
       move_request := {| cm_ProfileToken := token; cm_Velocity := None |};
       stop_request :=
         {| st_ProfileToken := token; st_PanTilt := true; st_Zoom := true |};
       velocities := velocities_table;
       speed_multipliers := speed_multipliers_table;
       keep_alive_active := true |}.



(** ** Vocabulary for stating properties *)

(** The direction names of the table. *)
Definition directions : list string :=
  ["left"; "right"; "up"; "down"; "zoom_in"; "zoom_out"].

(** The three axes of a velocity. *)
Inductive axis := Pan | Tilt | ZoomAxis.

(** The axis a direction name refers to. *)
Definition named_axis (d : string) : option axis :=
  (list_to_map
     [ ("left", Pan); ("right", Pan); ("up", Tilt); ("down", Tilt);
       ("zoom_in", ZoomAxis); ("zoom_out", ZoomAxis) ] : gmap string axis) !! d.

(** The component of a velocity on an axis. *)
Definition component (a : axis) (pan tilt zoom : Q) : Q :=
  match a with Pan => pan | Tilt => tilt | ZoomAxis => zoom end.

(** The nonzero components are the one on the axis [d] names, and no
    other. *)
Definition nonzero_exactly_on_named_axis (d : string) (pan tilt zoom : Q)
  : Prop :=
  forall a, ~ (component a pan tilt zoom == 0)%Q <-> named_axis d = Some a.

(** The velocity in the one envelope a call handed to a thread. *)
Definition sent_velocity {A} (r : result A * Self * list effect)
  : option (Q * Q * Q) :=
  match trace_of r with
  | [ThreadStart (TaskSendRaw (SoapMove _ pan tilt zoom))] =>
      Some (pan, tilt, zoom)
  | _ => None
  end.

(** The effects that put a request on the wire. *)
Definition is_network_call (e : effect) : bool :=
  match e with
  | SessionPost _ _ _ | SessionHead _ _
  | PtzContinuousMove _ | PtzStop _ | PtzGotoPreset _ => true
  | _ => false
  end.

Definition network_calls (tr : list effect) : list effect :=
  filter (fun e => is_network_call e = true) tr.

(** How a thread that makes the one call [net] without a handler ends. *)
Definition unhandled {R} (net : result R) : result unit :=
  match net with Ok _ => Ok tt | Raise e => Raise e end.

(** A schedule of keep-alive rounds with no shutdown in between. *)
Definition rounds {R} (probes : list (result R)) : list (ka_event R) :=
  map KaRound probes.

(** What one keep-alive round does. *)
Definition round_trace (self : Self) : list effect :=
  [Sleep 30; SessionHead (device_service self) 1].

(** The only way the class reports anything is [print]. *)
Definition is_print (e : effect) : bool :=
  match e with Print _ => true | _ => false end.






(** ** The generic move *)

(** The double nearest to [0.01], the threshold of [move]:
    5764607523034235 / 2^59. *)
Definition dead_zone : Q := 5764607523034235 # 576460752303423488.

(** [abs(x) > 0.01] *)
Definition exceeds_dead_zone (x : Q) : bool :=
  if Qlt_le_dec dead_zone (Qabs x) then true else false.

(** [move(pan_speed, tilt_speed, zoom_speed=0)] *)
Definition move (pan_speed tilt_speed zoom_speed : Q) : M unit :=
  self <- Mon.get ;;
  if exceeds_dead_zone pan_speed || exceeds_dead_zone tilt_speed then
    Mon.emit
      (ThreadStart
         (TaskSendRaw (SoapMove (token self) pan_speed tilt_speed zoom_speed)))
  else if exceeds_dead_zone zoom_speed then
    Mon.emit
      (ThreadStart (TaskSendRaw (SoapMove (token self) 0 0 zoom_speed)))
  else Mon.ret tt.

(** ** Sequences of calls *)

(** One call on the object, with the outcome of the network call it makes
    on the calling thread, if any. *)
Inductive command {R : Type} :=
| CallMoveInstant (direction : string) (speed : Q)
| CallMoveFast (moved : result R) (direction : string) (speed : Q)
| CallStopInstant
| CallStop (stopped : result R)
| CallMove (pan_speed tilt_speed zoom_speed : Q)
| CallGotoPreset (preset_token : string) (speed : Q)
| CallTimedMove (direction : string) (speed duration : Q).
Arguments command R : clear implicits.

Definition run_command {R} (c : command R) : M unit :=
  match c with
  | CallMoveInstant direction speed => move_instant direction speed
  | CallMoveFast moved direction speed => move_fast moved direction speed
  | CallStopInstant => stop_instant
  | CallStop stopped => stop stopped
  | CallMove pan_speed tilt_speed zoom_speed =>
      move pan_speed tilt_speed zoom_speed
  | CallGotoPreset preset_token speed => goto_preset preset_token speed
  | CallTimedMove direction speed duration =>
      timed_move direction speed duration
  end.

(** The calls of a caller that goes on after a failed call, as the GUI
    handlers do: the object and the trace after all of them. *)
Fixpoint run_commands {R} (cs : list (command R)) (self : Self)
  : Self * list effect :=
  match cs with
  | [] => (self, [])
  | c :: rest =>
      match run_command c self with
      | (_, self1, t1) =>
          match run_commands rest self1 with
          | (self2, t2) => (self2, t1 ++ t2)
          end
      end
  end.

(** The profile token an effect carries to the device, if it carries
    one. *)
Definition token_sent (e : effect) : option string :=
  match e with
  | ThreadStart (TaskSendRaw (SoapMove t _ _ _)) => Some t
  | ThreadStart (TaskSendRaw (SoapStop t)) => Some t
  | ThreadStart (TaskGotoPreset request) => Some (gp_ProfileToken request)
  | PtzContinuousMove request => Some (cm_ProfileToken request)
  | PtzStop request => Some (st_ProfileToken request)
  | PtzGotoPreset request => Some (gp_ProfileToken request)
  | SessionPost _ (SoapMove t _ _ _) _ => Some t
  | SessionPost _ (SoapStop t) _ => Some t
  | _ => None
  end.

(** The envelopes handed to threads, in order. *)
Definition envelopes (tr : list effect) : list soap :=
  omap (fun e => match e with
                 | ThreadStart (TaskSendRaw s) => Some s
                 | _ => None
                 end) tr.

(** The requests of the object carry its token. *)
Definition requests_carry_token (self : Self) : Prop :=
  cm_ProfileToken (move_request self) = token self
  /\ st_ProfileToken (stop_request self) = token self.

(** Every round trip of the constructor succeeds and a profile exists. *)
Definition accepts (dev : Device) (info : DeviceInfo) (p : Profile)
    (others : list Profile) : Prop :=
  connects dev = Ok tt
  /\ device_information dev = Ok info
  /\ ptz_service dev = Ok tt
  /\ media_service dev = Ok tt
  /\ profiles dev = Ok (p :: others).

(** The table entry [v] with each component multiplied by [speed]. *)
Definition scaled (v : Velocity) (speed : Q) : Velocity :=
  vel (pt_x (PanTilt v) * speed) (pt_y (PanTilt v) * speed)
      (z_x (Zoom v) * speed).

(** The velocity asked for by the last [move_fast] of [cs] whose direction
    is in [table]; [current] when there is none. *)
Fixpoint last_fast_velocity {R} (table : gmap string Velocity)
    (cs : list (command R)) (current : option Velocity) : option Velocity :=
  match cs with
  | [] => current
  | CallMoveFast _ direction speed :: rest =>
      match table !! direction with
      | Some v => last_fast_velocity table rest (Some (scaled v speed))
      | None => last_fast_velocity table rest current
      end
  | _ :: rest => last_fast_velocity table rest current
  end.

End Dispatcher.

(** * The media ingest loop ([VideoThread] in [camera_gui.py]) *)
Module Ingest.
Section WithFrame.
(** A decoded image; the loop never looks inside one. *)
Context {Frame : Type}.

(** ** Data *)

(** [cv2.VideoWriter(filename, fourcc, 20.0, (1920, 1080))] *)
Record VideoWriter := {
  vw_filename : string;
  vw_fourcc : string;
  vw_fps : Q;
  vw_size : Z * Z
}.

(** A [cv2.VideoCapture] handle: the [n]-th one opened by the loop, and
    whether the transport behind it is open. *)
Record Capture := { cap_no : nat; isOpened : bool }.

(** The attributes of a [VideoThread] object. *)
Record VideoThread := {
  rtsp_url : string;
  _run_flag : bool;
  recording : bool;
  video_writer : option VideoWriter;
  recording_filename : option string;
  frame_skip_count : Z
}.

Inductive log_msg :=
| MsgOpenFailed (url : string)
| MsgStreamConnected (url : string)
| MsgReadFailed (failures max : nat)
| MsgTooManyFailures
| MsgStartedRecording (filename : string)
| MsgStoppedRecording (filename : option string).

Inductive effect :=
| Print (msg : log_msg)
| CaptureOpen (url : string) (cap : Capture)
| CaptureSetBufferSize (cap : Capture) (depth : Z)
| CaptureRead (cap : Capture)
| CaptureRelease (cap : Capture)
| Emit (frame : Frame)
| WriterOpen (w : VideoWriter)
| WriterWrite (w : VideoWriter) (frame : Frame)
| WriterRelease (w : VideoWriter)
| Sleep (seconds : Q)
| Wait.

Definition M := @Mon.M effect VideoThread.

(** [__init__(rtsp_url)] *)
Definition __init__ (url : string) : VideoThread :=
  {| rtsp_url := url;
     _run_flag := true;
     recording := false;
     video_writer := None;
     recording_filename := None;
     frame_skip_count := 0 |}.

Definition set_run_flag (b : bool) (self : VideoThread) : VideoThread :=
  {| rtsp_url := rtsp_url self; _run_flag := b;
     recording := recording self; video_writer := video_writer self;
     recording_filename := recording_filename self;
     frame_skip_count := frame_skip_count self |}.

Definition set_recording (b : bool) (self : VideoThread) : VideoThread :=
  {| rtsp_url := rtsp_url self; _run_flag := _run_flag self;
     recording := b; video_writer := video_writer self;
     recording_filename := recording_filename self;
     frame_skip_count := frame_skip_count self |}.

Definition set_video_writer (w : option VideoWriter) (self : VideoThread)
  : VideoThread :=
  {| rtsp_url := rtsp_url self; _run_flag := _run_flag self;
     recording := recording self; video_writer := w;
     recording_filename := recording_filename self;
     frame_skip_count := frame_skip_count self |}.

Definition set_recording_filename (f : option string) (self : VideoThread)
  : VideoThread :=
  {| rtsp_url := rtsp_url self; _run_flag := _run_flag self;
     recording := recording self; video_writer := video_writer self;
     recording_filename := f;
     frame_skip_count := frame_skip_count self |}.

(** ** The recording switch *)

(** [start_recording(filename)] *)
Definition start_recording (filename : string) : M bool :=
  self <- Mon.get ;;
  if negb (recording self) then
    let w := {| vw_filename := filename; vw_fourcc := "mp4v";
                vw_fps := 20; vw_size := (1920, 1080)%Z |} in
    Mon.emit (WriterOpen w) ;;;
    Mon.put (set_recording_filename (Some filename)
               (set_recording true (set_video_writer (Some w) self))) ;;;
    Mon.emit (Print (MsgStartedRecording filename)) ;;;
    Mon.ret true
  else Mon.ret false.

(** [stop_recording()] *)
Definition stop_recording : M (option string) :=
  self <- Mon.get ;;
  if recording self then
    Mon.put (set_recording false self) ;;;
    match video_writer self with
    | Some w =>
        Mon.emit (WriterRelease w) ;;;
        Mon.put (set_video_writer None (set_recording false self))
    | None => Mon.ret tt
    end ;;;
    Mon.emit (Print (MsgStoppedRecording (recording_filename self))) ;;;
    Mon.ret (recording_filename self)
  else Mon.ret None.

(** [stop()] *)
Definition stop : M unit :=
  self <- Mon.get ;;
  Mon.put (set_run_flag false self) ;;;
  (if recording self then stop_recording ;;; Mon.ret tt else Mon.ret tt) ;;;
  Mon.emit Wait.

(** ** The loop *)

(** The local variables of [run]. *)
Record locals := { cap : Capture; consecutive_failures : nat }.

Definition max_failures : nat := 30.

(** One pass through the body of [while self._run_flag]: [read] is what
    [cap.read()] returns ([None] for [ret = False]), [reopen_ok] whether
    the transport opens should this pass reconnect. *)
Definition iteration (read : option Frame) (reopen_ok : bool) (l : locals)
  : M locals :=
  Mon.emit (CaptureRead (cap l)) ;;;
  match read with
  | Some frame =>
      Mon.emit (Emit frame) ;;;
      self <- Mon.get ;;
      match recording self, video_writer self with
      | true, Some w => Mon.emit (WriterWrite w frame)
      | _, _ => Mon.ret tt
      end ;;;
      Mon.ret {| cap := cap l; consecutive_failures := 0 |}
  | None =>
      let failures := S (consecutive_failures l) in
      Mon.emit (Print (MsgReadFailed failures max_failures)) ;;;
      if (max_failures <=? failures)%nat then
        self <- Mon.get ;;
        Mon.emit (Print MsgTooManyFailures) ;;;
        Mon.emit (CaptureRelease (cap l)) ;;;
        Mon.emit (Sleep 1) ;;;
        let cap' := {| cap_no := S (cap_no (cap l));
                       isOpened := reopen_ok |} in
        Mon.emit (CaptureOpen (rtsp_url self) cap') ;;;
        Mon.emit (CaptureSetBufferSize cap' 3) ;;;
        Mon.ret {| cap := cap'; consecutive_failures := 0 |}
      else
        Mon.emit (Sleep (1 # 10)) ;;;
        Mon.ret {| cap := cap l; consecutive_failures := failures |}
  end.

(** What happens to the thread object, in order: a pass of the loop, or
    a call made from the GUI thread between two passes. *)
Inductive event :=
| Pass (read : option Frame) (reopen_ok : bool)
| CallStartRecording (filename : string)
| CallStopRecording
| CallStop.

Inductive loop_end := StillRunning | Exited.

(** [while self._run_flag: ...], for as long as the schedule lasts. *)
Fixpoint loop (sched : list event) (l : locals) : M (loop_end * locals) :=
  match sched with
  | [] => Mon.ret (StillRunning, l)
  | Pass read reopen_ok :: rest =>
      self <- Mon.get ;;
      if _run_flag self then
        l' <- iteration read reopen_ok l ;;
        loop rest l'
      else Mon.ret (Exited, l)
  | CallStartRecording filename :: rest =>
      start_recording filename ;;; loop rest l
  | CallStopRecording :: rest =>
      stop_recording ;;; loop rest l
  | CallStop :: rest =>
      stop ;;; loop rest l
  end.


(** ** Reading a trace *)

Definition delivered (tr : list effect) : list Frame :=
  omap (fun e => match e with Emit f => Some f | _ => None end) tr.

Definition written (tr : list effect) : list Frame :=
  omap (fun e => match e with WriterWrite _ f => Some f | _ => None end) tr.

Definition is_reconnect (e : effect) : bool :=
  match e with
  | CaptureRelease _ | CaptureOpen _ _ => true
  | _ => false
  end.

Definition reconnect_effects (tr : list effect) : list effect :=
  filter (fun e => is_reconnect e = true) tr.

Definition is_open (e : effect) : bool :=
  match e with CaptureOpen _ _ => true | _ => false end.

Definition reopens (tr : list effect) : nat :=
  length (filter (fun e => is_open e = true) tr).

(** ** Reading a schedule *)

Definition reads_of (sched : list event) : list (option Frame) :=
  omap (fun ev => match ev with Pass r _ => Some r | _ => None end) sched.

Definition frames_of (sched : list event) : list Frame :=
  omap id (reads_of sched).

(** The length of the longest run of consecutive failed reads, the
    current run having [current] failures so far. *)
Fixpoint longest_streak (current : nat) (reads : list (option Frame)) : nat :=
  match reads with
  | [] => current
  | Some _ :: rest => Nat.max current (longest_streak 0 rest)
  | None :: rest => longest_streak (S current) rest
  end.

(** ** Vocabulary for stating properties *)

(** What a pass that read [f] writes to the sink. *)
Definition routed (self : VideoThread) (f : Frame) : list effect :=
  match recording self, video_writer self with
  | true, Some w => [WriterWrite w f]
  | _, _ => []
  end.

(** The effects of a pass that reconnects. *)
Definition reconnect_trace (self : VideoThread) (l : locals)
    (reopen_ok : bool) : list effect :=
  let cap' := {| cap_no := S (cap_no (cap l)); isOpened := reopen_ok |} in
  [ CaptureRead (cap l);
    Print (MsgReadFailed (S (consecutive_failures l)) max_failures);
    Print MsgTooManyFailures;
    CaptureRelease (cap l);
    Sleep 1;
    CaptureOpen (rtsp_url self) cap';
    CaptureSetBufferSize cap' 3 ].


(** [r] with the effects [t] in front of its trace. *)
Definition prefixed {A} (t : list effect)
    (r : result A * VideoThread * list effect)
  : result A * VideoThread * list effect :=
  (r.1.1, r.1.2, t ++ r.2).

(** ** More vocabulary: resources and recordings *)




(** The recording sinks a trace opens, and those it releases, in order. *)
Definition sinks_opened (tr : list effect) : list VideoWriter :=
  omap (fun e => match e with WriterOpen w => Some w | _ => None end) tr.







End WithFrame.
End Ingest.

(** * The GUI handlers that hold the dispatcher ([CameraGUI]) *)
Module Gui.

(** The attributes of [CameraGUI] the connection and PTZ handlers use;
    [video_thread] records whether the attribute is set. *)
Record CameraGUI := {
  camera : option Dispatcher.Self;
  video_thread : bool;
  is_connected : bool;
  ptz_speed : Q;
  zoom_speed : Q;
  camera_ip : string;
  camera_user : string;
  camera_pass : string
}.

Inductive effect :=
| Cam (e : Dispatcher.effect)
| StatusLabel (text : string)
| VideoLabel (text : string)
| ConnectButton (text : string)
| MessageBoxCritical (title : string) (e : exn)
| MessageBoxWarning (title : string) (e : exn)
| VideoThreadStart
| VideoThreadStop
| SetControlsEnabled (enabled : bool)
| PrintMoveError (e : exn)
| PrintStopError (e : exn).

Definition M := @Mon.M effect CameraGUI.

(** [__init__()], without the widgets *)
Definition __init__ : CameraGUI :=
  {| camera := None;
     video_thread := false;
     is_connected := false;
     ptz_speed := 1 # 2;
     zoom_speed := 3 # 10;
     camera_ip := "192.168.50.224";
     camera_user := "admin";
     camera_pass := "hydroLob99" |}.

Definition set_camera (c : option Dispatcher.Self) (g : CameraGUI)
  : CameraGUI :=
  {| camera := c; video_thread := video_thread g;
     is_connected := is_connected g; ptz_speed := ptz_speed g;
     zoom_speed := zoom_speed g; camera_ip := camera_ip g;
     camera_user := camera_user g; camera_pass := camera_pass g |}.

Definition set_video_thread (b : bool) (g : CameraGUI) : CameraGUI :=
  {| camera := camera g; video_thread := b;
     is_connected := is_connected g; ptz_speed := ptz_speed g;
     zoom_speed := zoom_speed g; camera_ip := camera_ip g;
     camera_user := camera_user g; camera_pass := camera_pass g |}.

Definition set_is_connected (b : bool) (g : CameraGUI) : CameraGUI :=
  {| camera := camera g; video_thread := video_thread g;
     is_connected := b; ptz_speed := ptz_speed g;
     zoom_speed := zoom_speed g; camera_ip := camera_ip g;
     camera_user := camera_user g; camera_pass := camera_pass g |}.

(** [JennovCamera(ip, user, password)] evaluated inside a handler. *)
Definition construct (dev : Dispatcher.Device) (ip user pass : string)
  : M Dispatcher.Self :=
  fun g =>
    match Dispatcher.__init__ dev ip user pass 80 tt with
    | (r, _, tr) => (r, g, map Cam tr)
    end.

(** A method call on the object [self.camera] refers to. *)
Definition on_camera {A} (cam : Dispatcher.Self) (m : Dispatcher.M A) : M A :=
  fun g =>
    match m cam with
    | (r, cam', tr) => (r, set_camera (Some cam') g, map Cam tr)
    end.

(** [needle in hay] on strings *)
Fixpoint contains (needle hay : string) : bool :=
  String.prefix needle hay
  || match hay with
     | EmptyString => false
     | String _ rest => contains needle rest
     end.

(** [toggle_connection()] *)
Definition toggle_connection (dev : Dispatcher.Device) : M unit :=
  self <- Mon.get ;;
  if negb (is_connected self) then
    Mon.try_except
      (Mon.emit (StatusLabel "Connecting...") ;;;
       cam <- construct dev (camera_ip self) (camera_user self)
                (camera_pass self) ;;
       Mon.modify (set_camera (Some cam)) ;;;
       Mon.modify (set_video_thread true) ;;;
       Mon.emit VideoThreadStart ;;;
       Mon.modify (set_is_connected true) ;;;
       Mon.emit (ConnectButton "Disconnect") ;;;
       Mon.emit (StatusLabel "Connected") ;;;
       Mon.emit (SetControlsEnabled true))
      (fun e =>
         Mon.emit (MessageBoxCritical "Connection Error" e) ;;;
         Mon.emit (StatusLabel "Connection Failed"))
  else
    (if video_thread self then
       Mon.emit VideoThreadStop ;;; Mon.modify (set_video_thread false)
     else Mon.ret tt) ;;;
    Mon.modify (set_camera None) ;;;
    Mon.modify (set_is_connected false) ;;;
    Mon.emit (ConnectButton "Connect Camera") ;;;
    Mon.emit (StatusLabel "Disconnected") ;;;
    Mon.emit (VideoLabel "No Video Feed") ;;;
    Mon.emit (SetControlsEnabled false).

(** [start_move(direction)] *)
Definition start_move (direction : string) : M unit :=
  self <- Mon.get ;;
  match camera self with
  | None => Mon.ret tt
  | Some cam =>
      Mon.try_except
        (let speed := if contains "zoom" direction
                      then zoom_speed self else ptz_speed self in
         on_camera cam (Dispatcher.move_instant direction speed))
        (fun e => Mon.emit (PrintMoveError e))
  end.

(** [stop_move()] *)
Definition stop_move : M unit :=
  self <- Mon.get ;;
  match camera self with
  | Some cam =>
      Mon.try_except
        (on_camera cam Dispatcher.stop_instant)
        (fun e => Mon.emit (PrintStopError e))
  | None => Mon.ret tt
  end.


End Gui.

(** * Concrete objects used by the examples *)
Module Examples.

(** A camera that answers every round trip of the constructor. *)
Definition good_device : Dispatcher.Device :=
  {| Dispatcher.connects := Ok tt;
     Dispatcher.device_information :=
       Ok {| Dispatcher.Manufacturer := "Jennov";
             Dispatcher.Model := "PTZ";
             Dispatcher.FirmwareVersion := "1.0" |};
     Dispatcher.ptz_service := Ok tt;
     Dispatcher.media_service := Ok tt;
     Dispatcher.profiles :=
       Ok [ {| Dispatcher.profile_token := "Profile_1" |} ] |}.

(** A camera that rejects the credentials. *)
Definition rejecting_device : Dispatcher.Device :=
  {| Dispatcher.connects := Ok tt;
     Dispatcher.device_information := Raise (TransportError Unauthorized);
     Dispatcher.ptz_service := Ok tt;
     Dispatcher.media_service := Ok tt;
     Dispatcher.profiles :=
       Ok [ {| Dispatcher.profile_token := "Profile_1" |} ] |}.

(** The object [JennovCameraUltra("10.0.0.2", "admin", "secret")] on
    [good_device]. *)
Definition camera0 : Dispatcher.Self :=
  {| Dispatcher.ip := "10.0.0.2"; Dispatcher.port := 80;
     Dispatcher.username := "admin"; Dispatcher.password := "secret";
     Dispatcher.token := "Profile_1";
     Dispatcher.ptz_url :=
       {| Dispatcher.host := "10.0.0.2"; Dispatcher.uport := 80;
          Dispatcher.path := "/onvif/PTZ" |};
     Dispatcher.move_request :=
       {| Dispatcher.cm_ProfileToken := "Profile_1";
          Dispatcher.cm_Velocity := None |};
     Dispatcher.stop_request :=
       {| Dispatcher.st_ProfileToken := "Profile_1";
          Dispatcher.st_PanTilt := true; Dispatcher.st_Zoom := true |};
     Dispatcher.velocities := Dispatcher.velocities_table;
     Dispatcher.speed_multipliers := Dispatcher.speed_multipliers_table;
     Dispatcher.keep_alive_active := true |}.

(** A thread object as constructed, and the locals of [run] at loop entry
    and after 29 failed reads. *)
Definition thread0 : Ingest.VideoThread :=
  Ingest.__init__ "rtsp://10.0.0.2:554/stream1".

Definition locals0 : Ingest.locals :=
  {| Ingest.cap := {| Ingest.cap_no := 0; Ingest.isOpened := true |};
     Ingest.consecutive_failures := 0 |}.

Definition locals_at_29 : Ingest.locals :=
  {| Ingest.cap := {| Ingest.cap_no := 0; Ingest.isOpened := true |};
     Ingest.consecutive_failures := 29 |}.

(** Frames 1 and 2, a stall of three failed reads, a recording started
    meanwhile, then frame 3. *)
Definition stalling_schedule : list (@Ingest.event nat) :=
  [ Ingest.Pass (Some 1) true; Ingest.Pass (Some 2) true;
    Ingest.Pass None true; Ingest.CallStartRecording "clip.mp4";
    Ingest.Pass None true; Ingest.Pass None true;
    Ingest.Pass (Some 3) true ].

(** Two frames, a second [start_recording] under another name, a failed
    read and a third frame. *)
Definition recording_schedule : list (@Ingest.event nat) :=
  [ Ingest.Pass (Some 4) true; Ingest.Pass (Some 5) true;
    Ingest.CallStartRecording "second.mp4";
    Ingest.Pass None true; Ingest.Pass (Some 6) true ].

End Examples.

(** * Facts about the dispatcher *)
Module DispatcherFacts.
Import Dispatcher.

Lemma camera0_constructed :
  outcome_of (__init__ Examples.good_device "10.0.0.2" "admin" "secret" 80 tt)
  = Ok Examples.camera0.
Proof. reflexivity. Qed.


(** ** Looking a direction up *)

Lemma directions_cases (d : string) :
  d ∈ directions ->
  d = "left" \/ d = "right" \/ d = "up" \/ d = "down"
  \/ d = "zoom_in" \/ d = "zoom_out".
Proof.
  unfold directions. rewrite !elem_of_cons, elem_of_nil. tauto.
Qed.

Lemma table_lookup_invalid (d : string) :
  d ∉ directions -> velocities_table !! d = None.
Proof.
  intros Hd. unfold velocities_table.
  apply not_elem_of_list_to_map_1. exact Hd.
Qed.

Lemma table_lookup_valid (d : string) :
  d ∈ directions -> is_Some (velocities_table !! d).
Proof.
  intros Hd. destruct (velocities_table !! d) eqn:E; [eauto|].
  apply not_elem_of_list_to_map_2 in E. contradiction.
Qed.

Lemma move_instant_found self d m v :
  velocities self !! d = Some v ->
  move_instant d m self
  = (Ok tt, self,
     [ThreadStart
        (TaskSendRaw
           (SoapMove (token self)
              (pt_x (PanTilt v) * m) (pt_y (PanTilt v) * m)
              (z_x (Zoom v) * m)))]).
Proof.
  intros Hv. unfold move_instant, Mon.bind, Mon.get, Mon.getitem.
  rewrite Hv. reflexivity.
Qed.

Lemma move_instant_missing self d m :
  velocities self !! d = None ->
  move_instant d m self = (Raise (KeyError d), self, []).
Proof.
  intros Hv. unfold move_instant, Mon.bind, Mon.get, Mon.getitem.
  rewrite Hv. reflexivity.
Qed.

Lemma move_fast_missing {R} (moved : result R) self d m :
  velocities self !! d = None ->
  move_fast moved d m self = (Raise (KeyError d), self, []).
Proof.
  intros Hv. unfold move_fast, Mon.bind, Mon.get, Mon.getitem.
  rewrite Hv. reflexivity.
Qed.

Lemma move_fast_found {R} (moved : result R) self d m v :
  velocities self !! d = Some v ->
  let request :=
    {| cm_ProfileToken := cm_ProfileToken (move_request self);
       cm_Velocity :=
         Some (vel (pt_x (PanTilt v) * m) (pt_y (PanTilt v) * m)
                   (z_x (Zoom v) * m)) |} in
  move_fast moved d m self
  = (Ok tt, set_move_request request self, [PtzContinuousMove request]).
Proof.
  intros Hv. unfold move_fast, Mon.bind, Mon.get, Mon.getitem.
  rewrite Hv. reflexivity.
Qed.

(** ** Velocity of a move *)

(** C1, as the code has it.  For a direction of the table and a magnitude
    [m] in [0, 1], [move_instant] hands one envelope to a thread; its
    velocity is the table's vector for the direction with each component
    multiplied by [m]; each component lies in [-1, 1]; for [m > 0] the
    nonzero components are exactly the one on the axis the direction
    names, and for [m = 0] all three are zero. *)
Theorem move_instant_velocity (self : Self) (d : string) (m : Q) :
  velocities self = velocities_table ->
  d ∈ directions ->
  (0 <= m)%Q -> (m <= 1)%Q ->
  exists v,
    velocities_table !! d = Some v
    /\ let pan := (pt_x (PanTilt v) * m)%Q in
       let tilt := (pt_y (PanTilt v) * m)%Q in
       let zoom := (z_x (Zoom v) * m)%Q in
       move_instant d m self
       = (Ok tt, self,
          [ThreadStart (TaskSendRaw (SoapMove (token self) pan tilt zoom))])
       /\ ((-1 <= pan)%Q /\ (pan <= 1)%Q)
       /\ ((-1 <= tilt)%Q /\ (tilt <= 1)%Q)
       /\ ((-1 <= zoom)%Q /\ (zoom <= 1)%Q)
       /\ ((0 < m)%Q -> nonzero_exactly_on_named_axis d pan tilt zoom)
       /\ ((m == 0)%Q -> (pan == 0)%Q /\ (tilt == 0)%Q /\ (zoom == 0)%Q).
Proof.
  intros Htable Hd Hlo Hhi.
  apply directions_cases in Hd.
  destruct Hd as [-> | [-> | [-> | [-> | [-> | ->]]]]];
    [ exists (vel (-1) 0 0) | exists (vel 1 0 0) | exists (vel 0 1 0)
    | exists (vel 0 (-1) 0) | exists (vel 0 0 1) | exists (vel 0 0 (-1)) ];
    (split; [reflexivity|]);
    cbv zeta;
    (split; [apply move_instant_found; rewrite Htable; reflexivity|]);
    cbn [pt_x pt_y z_x PanTilt Zoom vel];
    (split; [split; lra|]); (split; [split; lra|]); (split; [split; lra|]);
    (split;
     [ intros Hpos a; destruct a; cbn [component];
       (split;
        [ intros Hnz; first [reflexivity | exfalso; apply Hnz; lra]
        | intros Heq; first [discriminate Heq | lra] ])
     | intros Hz; repeat split; lra ]).
Qed.

Lemma move_instant_velocity_witness :
  sent_velocity (move_instant "left" (1 # 2) Examples.camera0)
  = Some (-1 * (1 # 2), 0 * (1 # 2), 0 * (1 # 2))%Q.
Proof.
  pose proof (move_instant_velocity Examples.camera0 "left" (1 # 2)) as H.
  destruct H as (v & Hv & H); [reflexivity | | lra | lra | ].
  - apply list_elem_of_here.
  - cbv zeta in H. destruct H as (Heq & _).
    injection Hv as <-. rewrite Heq. reflexivity.
Defined.

(** C1, as the claim words it, fails at magnitude 0: the call
    [move_instant("left", 0)] is within the claim's range, and the envelope
    it builds has a zero pan component although [left] names the pan
    axis. *)
Lemma move_instant_zero_magnitude :
  "left" ∈ directions /\ (0 <= 0)%Q /\ (0 <= 1)%Q
  /\ exists pan tilt zoom,
       sent_velocity (move_instant "left" 0 Examples.camera0)
       = Some (pan, tilt, zoom)
       /\ ~ nonzero_exactly_on_named_axis "left" pan tilt zoom.
Proof.
  split; [apply list_elem_of_here|]. split; [lra|]. split; [lra|].
  exists (-1 * 0)%Q, (0 * 0)%Q, (0 * 0)%Q. split; [reflexivity|].
  intros H. destruct (H Pan) as [_ Hnz].
  apply Hnz; reflexivity.
Qed.

(** ** Unknown directions *)

(** C10.  On a constructed object, a direction outside the table makes
    [move_instant] and [move_fast] raise [KeyError] with an empty trace and
    the object untouched, so nothing is built, started or sent; each of the
    six directions of the table is found, and both calls return
    normally. *)
Theorem unknown_direction_raises (self : Self) (d : string) (m : Q) :
  velocities self = velocities_table ->
  (d ∉ directions ->
     move_instant d m self = (Raise (KeyError d), self, [])
     /\ forall R (moved : result R),
          move_fast moved d m self = (Raise (KeyError d), self, []))
  /\ (d ∈ directions ->
        is_Some (velocities self !! d)
        /\ outcome_of (move_instant d m self) = Ok tt
        /\ forall R (moved : result R),
             outcome_of (move_fast moved d m self) = Ok tt).
Proof.
  intros Htable. split.
  - intros Hd. apply table_lookup_invalid in Hd. rewrite <- Htable in Hd.
    split; [now apply move_instant_missing|].
    intros R moved. now apply move_fast_missing.
  - intros Hd. apply table_lookup_valid in Hd. rewrite <- Htable in Hd.
    destruct Hd as [v Hv]. split; [eauto|]. split.
    + rewrite (move_instant_found _ _ _ _ Hv). reflexivity.
    + intros R moved. rewrite (move_fast_found moved _ _ _ _ Hv). reflexivity.
Qed.

Lemma unknown_direction_raises_witness :
  move_instant "diagonal" (1 # 2) Examples.camera0
  = (Raise (KeyError "diagonal"), Examples.camera0, []).
Proof.
  destruct (unknown_direction_raises Examples.camera0 "diagonal" (1 # 2))
    as [Hbad _]; [reflexivity|].
  apply Hbad. unfold directions.
  rewrite !elem_of_cons, elem_of_nil.
  intros H. repeat (destruct H as [H | H]; [discriminate H|]). exact H.
Defined.

(** ** Failures of a dispatch *)

Lemma send_raw_swallows {R} (net : result R) (soap_data : soap) (self : Self) :
  _send_raw net soap_data self
  = (Ok tt, self, [SessionPost (ptz_url self) soap_data (1 # 2)]).
Proof. reflexivity. Qed.

(** C6 as the claim words it fails for presets: the thread started by
    [goto_preset] calls the device without a handler, so a timeout is not
    caught there; it ends that thread with the exception. *)
Lemma goto_preset_failure_uncaught :
  exists request,
    started_tasks (trace_of (goto_preset "1" 1 Examples.camera0))
    = [TaskGotoPreset request]
    /\ outcome_of
         (thread_target (Raise (TransportError Timeout) : result unit)
            (TaskGotoPreset request) Examples.camera0)
       = Raise (TransportError Timeout).
Proof. eexists. split; reflexivity. Qed.

(** C6, as the code has it.  Whatever the network does ([net]):
    [_send_raw] makes one POST and returns normally; a move or a stop
    starts one thread, which makes that one POST and ends normally; a
    preset starts one thread, which makes one [GotoPreset] call and, when
    the call fails, ends with the exception, uncaught.  In the three cases
    the caller's call returns normally and only one network call is
    made. *)
Theorem dispatch_failure_not_surfaced {R} (net : result R) (self : Self)
    (d : string) (m : Q) (preset : string) (speed : Q) :
  velocities self = velocities_table ->
  d ∈ directions ->
  (forall soap_data,
     _send_raw net soap_data self
     = (Ok tt, self, [SessionPost (ptz_url self) soap_data (1 # 2)]))
  /\ (exists envelope,
        dispatch_and_run net (move_instant d m) self
        = (Ok tt, [Ok tt],
           [ThreadStart (TaskSendRaw envelope);
            SessionPost (ptz_url self) envelope (1 # 2)]))
  /\ dispatch_and_run net stop_instant self
     = (Ok tt, [Ok tt],
        [ThreadStart (TaskSendRaw (SoapStop (token self)));
         SessionPost (ptz_url self) (SoapStop (token self)) (1 # 2)])
  /\ (exists request,
        dispatch_and_run net (goto_preset preset speed) self
        = (Ok tt, [unhandled net],
           [CreateType "GotoPreset";
            ThreadStart (TaskGotoPreset request);
            PtzGotoPreset request])).
Proof.
  intros Htable Hd. split; [reflexivity|]. split; [|split].
  - apply table_lookup_valid in Hd. rewrite <- Htable in Hd.
    destruct Hd as [v Hv]. eexists.
    unfold dispatch_and_run. rewrite (move_instant_found _ _ _ _ Hv).
    reflexivity.
  - reflexivity.
  - eexists. unfold dispatch_and_run. cbn. destruct net; reflexivity.
Qed.

Lemma dispatch_failure_not_surfaced_witness :
  outcome_of
    (_send_raw (Raise (TransportError ConnectionReset) : result unit)
       (SoapStop "Profile_1") Examples.camera0)
  = Ok tt.
Proof.
  destruct (dispatch_failure_not_surfaced
              (Raise (TransportError ConnectionReset) : result unit)
              Examples.camera0 "up" (1 # 2) "1" 1) as [Hsend _].
  - reflexivity.
  - unfold directions. rewrite !elem_of_cons. auto.
  - rewrite Hsend. reflexivity.
Defined.

(** ** What a dispatch writes to the object *)

Lemma set_move_request_same (self : Self) :
  set_move_request (move_request self) self = self.
Proof. destruct self; reflexivity. Qed.

Lemma thread_target_reads_only {R} (net : result R) (t : task) (self : Self) :
  state_of (thread_target net t self) = self.
Proof. destruct t, net; reflexivity. Qed.

Lemma keep_alive_session_state {R} (sched : list (ka_event R)) (self : Self) :
  let self' := state_of (_keep_alive sched self) in
  token self' = token self /\ velocities self' = velocities self.
Proof.
  cbv zeta. revert self.
  induction sched as [|[probed|] rest IH]; intros self.
  - split; reflexivity.
  - cbn [_keep_alive].
    unfold Mon.bind, Mon.get, Mon.emit, Mon.try_pass, Mon.call, Mon.ret.
    destruct (keep_alive_active self); [|split; reflexivity].
    specialize (IH self). unfold state_of in *.
    destruct (_keep_alive rest self) as [[r s] t]. exact IH.
  - cbn [_keep_alive].
    unfold Mon.bind, __del__, Mon.bind, Mon.get, Mon.put, Mon.emit.
    specialize (IH (set_keep_alive_active false self)). unfold state_of in *.
    destruct (_keep_alive rest (set_keep_alive_active false self))
      as [[r s] t]. exact IH.
Qed.

Lemma keep_alive_rounds {R} (probes : list (result R)) (self : Self) :
  keep_alive_active self = true ->
  _keep_alive (rounds probes) self
  = (Ok StillRunning, self,
     concat (map (fun _ => round_trace self) probes)).
Proof.
  intros Hactive. induction probes as [|p rest IH]; [reflexivity|].
  cbn [rounds map _keep_alive]. unfold Mon.bind at 1, Mon.get.
  rewrite Hactive.
  unfold Mon.bind, Mon.emit, Mon.try_pass, Mon.call.
  fold (rounds rest). rewrite IH. destruct p; reflexivity.
Qed.

(** C8 as the claim words it fails for [move_fast]: it stores the new
    velocity in the request object made once by the constructor and shared
    by all calls, so the object differs after the call. *)
Lemma move_fast_writes_shared_request :
  state_of (move_fast (Ok tt) "left" (1 # 2) Examples.camera0)
  <> Examples.camera0.
Proof.
  intros H.
  apply (f_equal (fun s => cm_Velocity (move_request s))) in H.
  discriminate H.
Qed.

(** C8, as the code has it.  No dispatch operation writes the profile
    token or the velocity table.  [move_instant], [stop_instant],
    [goto_preset] and the threads they start leave the whole object as it
    was, and so does the keep-alive loop while it is not shut down.
    [move_fast] writes one attribute, the shared [move_request], keeping
    its profile token. *)
Theorem dispatch_frame {R} (net : result R) (self : Self) (d : string) (m : Q)
    (preset : string) (speed : Q) (t : task) (probes : list (result R))
    (sched : list (ka_event R)) :
  state_of (move_instant d m self) = self
  /\ state_of (stop_instant self) = self
  /\ state_of (goto_preset preset speed self) = self
  /\ state_of (thread_target net t self) = self
  /\ (let self' := state_of (move_fast net d m self) in
      token self' = token self
      /\ velocities self' = velocities self
      /\ cm_ProfileToken (move_request self')
         = cm_ProfileToken (move_request self)
      /\ self' = set_move_request (move_request self') self)
  /\ (let self' := state_of (_keep_alive sched self) in
      token self' = token self /\ velocities self' = velocities self)
  /\ (keep_alive_active self = true ->
      state_of (_keep_alive (rounds probes) self) = self).
Proof.
  split; [|split; [|split; [|split; [|split; [|split]]]]].
  - destruct (velocities self !! d) as [v|] eqn:Hv.
    + rewrite (move_instant_found _ _ _ _ Hv). reflexivity.
    + rewrite (move_instant_missing _ _ _ Hv). reflexivity.
  - reflexivity.
  - reflexivity.
  - apply thread_target_reads_only.
  - cbv zeta. destruct (velocities self !! d) as [v|] eqn:Hv.
    + rewrite (move_fast_found net _ _ _ _ Hv). cbn.
      repeat split; reflexivity.
    + rewrite (move_fast_missing net _ _ _ Hv). cbn.
      rewrite set_move_request_same. repeat split; reflexivity.
  - apply keep_alive_session_state.
  - intros Hactive. rewrite (keep_alive_rounds probes self Hactive).
    reflexivity.
Qed.

(** ** Keep-alive *)

(** C9 as the claim words it fails on logging: a round whose probe times
    out leaves a trace of one sleep and one probe, with nothing printed or
    logged; the loop goes on. *)
Lemma keep_alive_failure_not_logged :
  outcome_of
    (_keep_alive [KaRound (Raise (TransportError Timeout) : result unit)]
       Examples.camera0)
  = Ok StillRunning
  /\ trace_of
       (_keep_alive [KaRound (Raise (TransportError Timeout) : result unit)]
          Examples.camera0)
     = [Sleep 30; SessionHead (device_service Examples.camera0) 1]
  /\ existsb is_print
       (trace_of
          (_keep_alive [KaRound (Raise (TransportError Timeout) : result unit)]
             Examples.camera0))
     = false.
Proof. repeat split; reflexivity. Qed.

(** C9, as the code has it.  While the object is active, each round of the
    keep-alive loop sleeps 30 seconds and then makes one [HEAD] request to
    the device service with a timeout of 1 second.  Whether the probes
    succeed or fail, nothing is raised, nothing is printed or logged, and
    the loop is still running after any number of rounds. *)
Theorem keep_alive_probes {R} (probes : list (result R)) (self : Self) :
  keep_alive_active self = true ->
  let r := _keep_alive (rounds probes) self in
  outcome_of r = Ok StillRunning
  /\ trace_of r
     = concat (map (fun _ => [Sleep 30; SessionHead (device_service self) 1])
                 probes)
  /\ existsb is_print (trace_of r) = false
  /\ length (network_calls (trace_of r)) = length probes.
Proof.
  intros Hactive. cbv zeta. rewrite (keep_alive_rounds probes self Hactive).
  unfold outcome_of, trace_of, round_trace. cbn [fst snd].
  split; [reflexivity|]. split; [reflexivity|].
  induction probes as [|p rest [IH1 IH2]]; [split; reflexivity|].
  cbn [map concat]. split.
  - cbn [app existsb is_print orb]. exact IH1.
  - unfold network_calls in *. cbn [app length].
    rewrite !filter_cons. cbn [is_network_call].
    rewrite decide_False by discriminate.
    rewrite decide_True by reflexivity.
    cbn [length]. f_equal. exact IH2.
Qed.

Lemma keep_alive_probes_witness :
  outcome_of
    (_keep_alive
       (rounds [Raise (TransportError Timeout); Ok tt;
                Raise (TransportError ConnectionReset)])
       Examples.camera0)
  = Ok StillRunning.
Proof.
  apply (keep_alive_probes
           [Raise (TransportError Timeout); Ok tt;
            Raise (TransportError ConnectionReset)] Examples.camera0).
  reflexivity.
Defined.

(** ** Failed construction *)







End DispatcherFacts.

(** * Facts about the ingest loop *)
Module IngestFacts.
Import Ingest.
Section Facts.
Context {Frame : Type}.
Implicit Types (self : VideoThread) (l : locals) (f : Frame).
Implicit Types (sched : list (@event Frame)).

(** ** One pass *)

Lemma iteration_read self l f (reopen_ok : bool) :
  iteration (Some f) reopen_ok l self
  = (Ok {| cap := cap l; consecutive_failures := 0 |}, self,
     CaptureRead (cap l) :: Emit f :: routed self f).
Proof.
  unfold iteration, routed, Mon.bind, Mon.emit, Mon.get, Mon.ret.
  destruct (recording self), (video_writer self); reflexivity.
Qed.

Lemma iteration_backoff self l (reopen_ok : bool) :
  S (consecutive_failures l) < max_failures ->
  iteration (Frame:=Frame) None reopen_ok l self
  = (Ok {| cap := cap l;
           consecutive_failures := S (consecutive_failures l) |}, self,
     [ CaptureRead (cap l);
       Print (MsgReadFailed (S (consecutive_failures l)) max_failures);
       Sleep (1 # 10) ]).
Proof.
  intros Hlt. unfold iteration, Mon.bind, Mon.emit, Mon.get, Mon.ret.
  destruct (Nat.leb_spec max_failures (S (consecutive_failures l)));
    [lia | reflexivity].
Qed.

Lemma iteration_reconnect self l (reopen_ok : bool) :
  max_failures <= S (consecutive_failures l) ->
  iteration (Frame:=Frame) None reopen_ok l self
  = (Ok {| cap := {| cap_no := S (cap_no (cap l));
                     isOpened := reopen_ok |};
           consecutive_failures := 0 |}, self,
     reconnect_trace self l reopen_ok).
Proof.
  intros Hge. unfold iteration, Mon.bind, Mon.emit, Mon.get, Mon.ret.
  destruct (Nat.leb_spec max_failures (S (consecutive_failures l)));
    [reflexivity | lia].
Qed.

(** ** The recording switch *)

Lemma start_recording_when_recording self (filename : string) :
  recording self = true ->
  start_recording (Frame:=Frame) filename self = (Ok false, self, []).
Proof.
  intros H. unfold start_recording, Mon.bind, Mon.get. rewrite H.
  reflexivity.
Qed.

Lemma start_recording_when_idle self (filename : string) :
  recording self = false ->
  let w := {| vw_filename := filename; vw_fourcc := "mp4v";
              vw_fps := 20; vw_size := (1920, 1080)%Z |} in
  start_recording (Frame:=Frame) filename self
  = (Ok true,
     set_recording_filename (Some filename)
       (set_recording true (set_video_writer (Some w) self)),
     [WriterOpen w; Print (MsgStartedRecording filename)]).
Proof.
  intros H. unfold start_recording, Mon.bind, Mon.get. rewrite H.
  reflexivity.
Qed.

Lemma stop_recording_when_idle self :
  recording self = false ->
  stop_recording (Frame:=Frame) self = (Ok None, self, []).
Proof.
  intros H. unfold stop_recording, Mon.bind, Mon.get. rewrite H.
  reflexivity.
Qed.

Lemma stop_recording_when_recording self :
  recording self = true ->
  stop_recording (Frame:=Frame) self
  = (Ok (recording_filename self),
     match video_writer self with
     | Some _ => set_video_writer None (set_recording false self)
     | None => set_recording false self
     end,
     match video_writer self with
     | Some w => [WriterRelease w]
     | None => []
     end ++ [Print (MsgStoppedRecording (recording_filename self))]).
Proof.
  intros H. unfold stop_recording, Mon.bind, Mon.get. rewrite H.
  destruct (video_writer self); reflexivity.
Qed.

(** ** Stepping the loop *)

Lemma loop_pass self l (read : option Frame) (reopen_ok : bool) sched :
  _run_flag self = true ->
  loop (Pass read reopen_ok :: sched) l self
  = match iteration read reopen_ok l self with
    | (Ok l', self', t) => prefixed t (loop sched l' self')
    | (Raise e, self', t) => (Raise e, self', t)
    end.
Proof.
  intros Hrun. cbn [loop]. unfold Mon.bind, Mon.get. rewrite Hrun.
  destruct (iteration read reopen_ok l self) as [[[l'|e] self'] t];
    [|reflexivity].
  unfold prefixed. destruct (loop sched l' self') as [[r s] t'].
  reflexivity.
Qed.

Lemma loop_pass_read self l f (reopen_ok : bool) sched :
  _run_flag self = true ->
  loop (Pass (Some f) reopen_ok :: sched) l self
  = prefixed (CaptureRead (cap l) :: Emit f :: routed self f)
      (loop sched {| cap := cap l; consecutive_failures := 0 |} self).
Proof.
  intros Hrun. rewrite (loop_pass _ _ _ _ _ Hrun), iteration_read.
  reflexivity.
Qed.

Lemma loop_pass_backoff self l (reopen_ok : bool) sched :
  _run_flag self = true ->
  S (consecutive_failures l) < max_failures ->
  loop (Pass None reopen_ok :: sched) l self
  = prefixed
      [ CaptureRead (cap l);
        Print (MsgReadFailed (S (consecutive_failures l)) max_failures);
        Sleep (1 # 10) ]
      (loop sched
         {| cap := cap l;
            consecutive_failures := S (consecutive_failures l) |} self).
Proof.
  intros Hrun Hlt.
  rewrite (loop_pass _ _ _ _ _ Hrun), (iteration_backoff _ _ _ Hlt).
  reflexivity.
Qed.

Lemma loop_pass_reconnect self l (reopen_ok : bool) sched :
  _run_flag self = true ->
  max_failures <= S (consecutive_failures l) ->
  loop (Pass None reopen_ok :: sched) l self
  = prefixed (reconnect_trace self l reopen_ok)
      (loop sched
         {| cap := {| cap_no := S (cap_no (cap l)); isOpened := reopen_ok |};
            consecutive_failures := 0 |} self).
Proof.
  intros Hrun Hge.
  rewrite (loop_pass _ _ _ _ _ Hrun), (iteration_reconnect _ _ _ Hge).
  reflexivity.
Qed.

Lemma loop_call_start self l (filename : string) sched :
  loop (CallStartRecording filename :: sched) l self
  = prefixed (trace_of (start_recording (Frame:=Frame) filename self))
      (loop sched l (state_of (start_recording (Frame:=Frame) filename self))).
Proof.
  cbn [loop]. unfold Mon.bind.
  destruct (recording self) eqn:Hrec.
  - rewrite (start_recording_when_recording _ _ Hrec).
    unfold prefixed, state_of, trace_of. cbn [fst snd].
    destruct (loop sched l self) as [[r s] t]. reflexivity.
  - rewrite (start_recording_when_idle _ _ Hrec).
    unfold prefixed, state_of, trace_of. cbn [fst snd].
    match goal with |- context [loop sched l ?s] =>
      destruct (loop sched l s) as [[r s'] t] end.
    reflexivity.
Qed.

Lemma loop_call_stop self l sched :
  loop (CallStopRecording :: sched) l self
  = prefixed (trace_of (stop_recording (Frame:=Frame) self))
      (loop sched l (state_of (stop_recording (Frame:=Frame) self))).
Proof.
  cbn [loop]. unfold Mon.bind.
  destruct (recording self) eqn:Hrec.
  - rewrite (stop_recording_when_recording _ Hrec).
    unfold prefixed, state_of, trace_of. cbn [fst snd].
    match goal with |- context [loop sched l ?s] =>
      destruct (loop sched l s) as [[r s'] t] end.
    reflexivity.
  - rewrite (stop_recording_when_idle _ Hrec).
    unfold prefixed, state_of, trace_of. cbn [fst snd].
    destruct (loop sched l self) as [[r s] t]. reflexivity.
Qed.

(** The recording switch leaves the run flag alone and emits nothing
    but sink operations and prints. *)
Lemma start_recording_quiet self (filename : string) :
  let r := start_recording (Frame:=Frame) filename self in
  _run_flag (state_of r) = _run_flag self
  /\ delivered (trace_of r) = []
  /\ written (trace_of r) = []
  /\ reconnect_effects (trace_of r) = [].
Proof.
  cbv zeta. destruct (recording self) eqn:Hrec.
  - rewrite (start_recording_when_recording _ _ Hrec).
    repeat split; reflexivity.
  - rewrite (start_recording_when_idle _ _ Hrec).
    repeat split; reflexivity.
Qed.

Lemma stop_recording_quiet self :
  let r := stop_recording (Frame:=Frame) self in
  _run_flag (state_of r) = _run_flag self
  /\ delivered (trace_of r) = []
  /\ written (trace_of r) = []
  /\ reconnect_effects (trace_of r) = [].
Proof.
  cbv zeta. destruct (recording self) eqn:Hrec.
  - rewrite (stop_recording_when_recording _ Hrec).
    destruct (video_writer self); repeat split; reflexivity.
  - rewrite (stop_recording_when_idle _ Hrec).
    repeat split; reflexivity.
Qed.

Lemma routed_quiet self f :
  delivered (routed self f) = []
  /\ reconnect_effects (routed self f) = [].
Proof.
  unfold routed. destruct (recording self), (video_writer self);
    split; reflexivity.
Qed.

Lemma streak_at_least (current : nat) (reads : list (option Frame)) :
  current <= longest_streak current reads.
Proof.
  revert current. induction reads as [|[f|] rest IH]; intros current;
    cbn [longest_streak]; [lia | lia |].
  specialize (IH (S current)). lia.
Qed.

Lemma outcome_prefixed {A} (t : list (@effect Frame))
    (r : result A * VideoThread * list (@effect Frame)) :
  outcome_of (prefixed t r) = outcome_of r.
Proof. reflexivity. Qed.

Lemma state_prefixed {A} (t : list (@effect Frame))
    (r : result A * VideoThread * list (@effect Frame)) :
  state_of (prefixed t r) = state_of r.
Proof. reflexivity. Qed.

Lemma trace_prefixed {A} (t : list (@effect Frame))
    (r : result A * VideoThread * list (@effect Frame)) :
  trace_of (prefixed t r) = t ++ trace_of r.
Proof. reflexivity. Qed.

Lemma delivered_app (t1 t2 : list (@effect Frame)) :
  delivered (t1 ++ t2) = delivered t1 ++ delivered t2.
Proof. apply omap_app. Qed.

Lemma reconnect_effects_app (t1 t2 : list (@effect Frame)) :
  reconnect_effects (t1 ++ t2)
  = reconnect_effects t1 ++ reconnect_effects t2.
Proof. apply filter_app. Qed.

Lemma reopens_app (t1 t2 : list (@effect Frame)) :
  reopens (t1 ++ t2) = reopens t1 + reopens t2.
Proof. unfold reopens. rewrite filter_app. apply length_app. Qed.

(** ** Runs that stay below the threshold *)

Lemma loop_below_threshold sched :
  forall l self,
    _run_flag self = true ->
    CallStop ∉ sched ->
    longest_streak (consecutive_failures l) (reads_of sched) < max_failures ->
    let r := loop sched l self in
    (exists l', outcome_of r = Ok (StillRunning, l') /\ cap l' = cap l)
    /\ reconnect_effects (trace_of r) = []
    /\ delivered (trace_of r) = frames_of sched.
Proof.
  induction sched as [|ev sched IH]; intros l self Hrun Hstop Hstreak;
    cbv zeta.
  - split; [exists l; split; reflexivity|]. split; reflexivity.
  - apply not_elem_of_cons in Hstop as [Hev Hstop].
    destruct ev as [[f|] reopen_ok|filename| |].
    + (* a frame was read *)
      change (reads_of (Pass (Some f) reopen_ok :: sched))
        with (Some f :: reads_of sched) in Hstreak.
      cbn [longest_streak] in Hstreak.
      rewrite (loop_pass_read _ _ _ _ _ Hrun).
      rewrite outcome_prefixed, trace_prefixed.
      destruct (IH {| cap := cap l; consecutive_failures := 0 |} self
                  Hrun Hstop) as ((l' & Hout & Hcap) & Hrec & Hdel).
      { cbn [consecutive_failures]. lia. }
      split; [exists l'; split; assumption|].
      destruct (routed_quiet self f) as [Hd Hr].
      split.
      * change (CaptureRead (cap l) :: Emit f :: routed self f)
          with ([CaptureRead (cap l); Emit f] ++ routed self f).
        rewrite !reconnect_effects_app, Hr, Hrec. reflexivity.
      * change (CaptureRead (cap l) :: Emit f :: routed self f)
          with ([CaptureRead (cap l); Emit f] ++ routed self f).
        rewrite !delivered_app, Hd, Hdel. reflexivity.
    + (* a read failed, below the threshold *)
      change (reads_of (Pass None reopen_ok :: sched))
        with (None :: reads_of sched) in Hstreak.
      cbn [longest_streak] in Hstreak.
      pose proof (streak_at_least (S (consecutive_failures l))
                    (reads_of sched)) as Hge.
      rewrite (loop_pass_backoff _ _ _ _ Hrun) by lia.
      rewrite outcome_prefixed, trace_prefixed.
      destruct (IH {| cap := cap l;
                      consecutive_failures := S (consecutive_failures l) |}
                  self Hrun Hstop Hstreak)
        as ((l' & Hout & Hcap) & Hrec & Hdel).
      split; [exists l'; split; assumption|].
      rewrite reconnect_effects_app, delivered_app, Hrec, Hdel.
      split; reflexivity.
    + (* start_recording called from the GUI *)
      rewrite loop_call_start, outcome_prefixed, trace_prefixed.
      destruct (start_recording_quiet self filename)
        as (Hflag & Hd & _ & Hr).
      destruct (IH l (state_of (start_recording (Frame:=Frame) filename self)))
        as (Hout & Hrec & Hdel); [congruence | assumption | assumption |].
      split; [exact Hout|].
      rewrite reconnect_effects_app, delivered_app, Hr, Hd, Hrec, Hdel.
      split; reflexivity.
    + (* stop_recording called from the GUI *)
      rewrite loop_call_stop, outcome_prefixed, trace_prefixed.
      destruct (stop_recording_quiet self) as (Hflag & Hd & _ & Hr).
      destruct (IH l (state_of (stop_recording (Frame:=Frame) self)))
        as (Hout & Hrec & Hdel); [congruence | assumption | assumption |].
      split; [exact Hout|].
      rewrite reconnect_effects_app, delivered_app, Hr, Hd, Hrec, Hdel.
      split; reflexivity.
    + contradiction Hev. reflexivity.
Qed.

(** C2.  Take a run of the loop in which the thread is not stopped and
    every streak of consecutive failed reads is shorter than 30, the
    first one counted from the failures already on the counter.  The
    loop is still running at the end with the capture handle it started
    with; its trace has no release and no open of the transport; and the
    frames emitted to the consumer are exactly the frames read, in the
    order read.  Moreover any pass that reads a frame sets the counter to
    0 and emits that frame. *)
Theorem short_stalls_never_reconnect sched l self :
  _run_flag self = true ->
  CallStop ∉ sched ->
  longest_streak (consecutive_failures l) (reads_of sched) < max_failures ->
  let r := loop sched l self in
  (exists l', outcome_of r = Ok (StillRunning, l') /\ cap l' = cap l)
  /\ reconnect_effects (trace_of r) = []
  /\ delivered (trace_of r) = frames_of sched
  /\ (forall f (reopen_ok : bool) l0 self0,
        iteration (Some f) reopen_ok l0 self0
        = (Ok {| cap := cap l0; consecutive_failures := 0 |}, self0,
           CaptureRead (cap l0) :: Emit f :: routed self0 f)).
Proof.
  intros Hrun Hstop Hstreak. cbv zeta.
  destruct (loop_below_threshold sched l self Hrun Hstop Hstreak)
    as (Hout & Hrec & Hdel).
  split; [exact Hout|]. split; [exact Hrec|]. split; [exact Hdel|].
  intros f reopen_ok l0 self0. apply iteration_read.
Qed.

(** ** Reconnecting *)

Lemma loop_app sched1 sched2 :
  forall l self,
    loop (sched1 ++ sched2) l self
    = match loop sched1 l self with
      | (Ok (StillRunning, l'), self', t) =>
          prefixed t (loop sched2 l' self')
      | other => other
      end.
Proof.
  induction sched1 as [|ev sched1 IH]; intros l self.
  - cbn [app loop]. unfold Mon.ret, prefixed.
    destruct (loop sched2 l self) as [[r s] t]. reflexivity.
  - destruct ev as [read reopen_ok|filename| |]; cbn [app loop];
      unfold Mon.bind.
    + unfold Mon.get. destruct (_run_flag self); [|reflexivity].
      destruct (iteration read reopen_ok l self) as [[[l1|e] s1] t1];
        [|reflexivity].
      rewrite IH. destruct (loop sched1 l1 s1) as [[[[[] l2]|e] s2] t2];
        try reflexivity.
      unfold prefixed. destruct (loop sched2 l2 s2) as [[r s3] t3].
      cbn [fst snd app]. rewrite <- ?List.app_assoc. reflexivity.
    + destruct (start_recording filename self) as [[[b|e] s1] t1];
        [|reflexivity].
      rewrite IH. destruct (loop sched1 l s1) as [[[[[] l2]|e] s2] t2];
        try reflexivity.
      unfold prefixed. destruct (loop sched2 l2 s2) as [[r s3] t3].
      cbn [fst snd app]. rewrite <- ?List.app_assoc. reflexivity.
    + destruct (stop_recording self) as [[[b|e] s1] t1]; [|reflexivity].
      rewrite IH. destruct (loop sched1 l s1) as [[[[[] l2]|e] s2] t2];
        try reflexivity.
      unfold prefixed. destruct (loop sched2 l2 s2) as [[r s3] t3].
      cbn [fst snd app]. rewrite <- ?List.app_assoc. reflexivity.
    + destruct (stop self) as [[[b|e] s1] t1]; [|reflexivity].
      rewrite IH. destruct (loop sched1 l s1) as [[[[[] l2]|e] s2] t2];
        try reflexivity.
      unfold prefixed. destruct (loop sched2 l2 s2) as [[r s3] t3].
      cbn [fst snd app]. rewrite <- ?List.app_assoc. reflexivity.
Qed.

(** [n] failed reads in a row that stay below the threshold. *)
Lemma failed_reads_backoff (n : nat) (reopen_ok : bool) :
  forall l self,
    _run_flag self = true ->
    consecutive_failures l + n < max_failures ->
    exists t,
      loop (repeat (Pass (Frame:=Frame) None reopen_ok) n) l self
      = (Ok (StillRunning,
             {| cap := cap l;
                consecutive_failures := consecutive_failures l + n |}),
         self, t)
      /\ reopens t = 0.
Proof.
  induction n as [|n IH]; intros l self Hrun Hlt.
  - exists []. split; [|reflexivity]. cbn [repeat loop]. unfold Mon.ret.
    rewrite Nat.add_0_r. destruct l; reflexivity.
  - cbn [repeat]. rewrite (loop_pass_backoff _ _ _ _ Hrun) by lia.
    destruct (IH {| cap := cap l;
                    consecutive_failures := S (consecutive_failures l) |}
                self Hrun) as (t & Ht & Hopen).
    { cbn [consecutive_failures]. lia. }
    rewrite Ht. cbn [cap consecutive_failures].
    eexists. unfold prefixed. cbn [fst snd]. split.
    + rewrite Nat.add_succ_r. reflexivity.
    + rewrite reopens_app, Hopen. reflexivity.
Qed.

(** Thirty failed reads in a row from a fresh counter end in one
    reconnect. *)
Lemma failed_round (reopen_ok : bool) l self :
  _run_flag self = true ->
  consecutive_failures l = 0 ->
  exists t,
    loop (repeat (Pass (Frame:=Frame) None reopen_ok) max_failures) l self
    = (Ok (StillRunning,
           {| cap := {| cap_no := S (cap_no (cap l));
                        isOpened := reopen_ok |};
              consecutive_failures := 0 |}),
       self, t)
    /\ reopens t = 1.
Proof.
  intros Hrun Hzero.
  change max_failures with (29 + 1) at 1.
  rewrite repeat_app, loop_app.
  destruct (failed_reads_backoff 29 reopen_ok l self Hrun)
    as (t & Ht & Hopen).
  { rewrite Hzero. unfold max_failures. lia. }
  rewrite Ht. cbn [repeat].
  rewrite (loop_pass_reconnect _ _ _ _ Hrun)
    by (cbn [consecutive_failures]; unfold max_failures; lia).
  cbn [loop cap cap_no]. unfold Mon.ret, prefixed. cbn [fst snd].
  eexists. split; [reflexivity|].
  rewrite !reopens_app, Hopen. reflexivity.
Qed.

(** [k] rounds of thirty failed reads, every reopen failing. *)
Lemma failed_rounds (k : nat) :
  forall l self,
    _run_flag self = true ->
    consecutive_failures l = 0 ->
    isOpened (cap l) = false ->
    exists t,
      loop (repeat (Pass (Frame:=Frame) None false) (k * max_failures))
        l self
      = (Ok (StillRunning,
             {| cap := {| cap_no := cap_no (cap l) + k;
                          isOpened := false |};
                consecutive_failures := 0 |}),
         self, t)
      /\ reopens t = k.
Proof.
  induction k as [|k IH]; intros l self Hrun Hzero Hclosed.
  - exists []. split; [|reflexivity]. cbn [Nat.mul repeat loop].
    unfold Mon.ret. rewrite Nat.add_0_r.
    destruct l as [[n o] c]. cbn in *. subst. reflexivity.
  - cbn [Nat.mul]. rewrite repeat_app, loop_app.
    destruct (failed_round false l self Hrun Hzero) as (t1 & Ht1 & Ho1).
    rewrite Ht1.
    destruct (IH {| cap := {| cap_no := S (cap_no (cap l));
                              isOpened := false |};
                    consecutive_failures := 0 |} self Hrun)
      as (t2 & Ht2 & Ho2); [reflexivity | reflexivity |].
    rewrite Ht2. cbn [cap cap_no]. unfold prefixed. cbn [fst snd].
    eexists. split.
    + rewrite Nat.add_succ_r. reflexivity.
    + rewrite reopens_app, Ho1, Ho2. reflexivity.
Qed.

(** C3.  A failed read that brings the counter to 30 or more makes the
    pass print, release the capture handle, sleep one second, open the
    transport again and set its buffer depth, in that order, and leaves
    the counter at 0 whether or not the transport opened; the loop then
    goes on with the next pass.  When the reopen fails and reads keep
    failing, each further thirty passes end in another reopen: after
    [k] such rounds the loop has reopened [k] more times, holds the
    handle of the last attempt and is still running. *)
Theorem reconnect_at_threshold self l (reopen_ok : bool) sched (k : nat) :
  _run_flag self = true ->
  max_failures <= S (consecutive_failures l) ->
  let cap' := {| cap_no := S (cap_no (cap l)); isOpened := reopen_ok |} in
  let l' := {| cap := cap'; consecutive_failures := 0 |} in
  let t : list (@effect Frame) :=
    [ CaptureRead (cap l);
      Print (MsgReadFailed (S (consecutive_failures l)) max_failures);
      Print MsgTooManyFailures;
      CaptureRelease (cap l);
      Sleep 1;
      CaptureOpen (rtsp_url self) cap';
      CaptureSetBufferSize cap' 3 ] in
  iteration None reopen_ok l self = (Ok l', self, t)
  /\ loop (Pass None reopen_ok :: sched) l self
     = prefixed t (loop sched l' self)
  /\ (reopen_ok = false ->
      let r :=
        loop (repeat (Pass (Frame:=Frame) None false) (k * max_failures))
          l' self in
      outcome_of r
      = Ok (StillRunning,
            {| cap := {| cap_no := cap_no cap' + k; isOpened := false |};
               consecutive_failures := 0 |})
      /\ reopens (trace_of r) = k).
Proof.
  intros Hrun Hge. cbv zeta.
  split; [exact (iteration_reconnect self l reopen_ok Hge)|].
  split; [exact (loop_pass_reconnect self l reopen_ok sched Hrun Hge)|].
  intros ->.
  destruct (failed_rounds k
              {| cap := {| cap_no := S (cap_no (cap l));
                           isOpened := false |};
                 consecutive_failures := 0 |} self Hrun)
    as (t & Ht & Hopen); [reflexivity | reflexivity |].
  rewrite Ht. split; [reflexivity | exact Hopen].
Qed.

(** ** The recording switch *)

(** C4.  In any state of the thread object, [start_recording] called
    while recording returns [False], with no effect and the object (so
    the sink in use) unchanged; [stop_recording] called while not
    recording returns [None], with no effect and the object unchanged. *)
Theorem recording_switch_noop self (filename : string) :
  (recording self = true ->
   start_recording (Frame:=Frame) filename self = (Ok false, self, []))
  /\ (recording self = false ->
      stop_recording (Frame:=Frame) self = (Ok None, self, [])).
Proof.
  split.
  - apply start_recording_when_recording.
  - apply stop_recording_when_idle.
Qed.

(** ** Routing a frame *)

Lemma iteration_state self l (read : option Frame) (reopen_ok : bool) :
  state_of (iteration read reopen_ok l self) = self.
Proof.
  destruct read as [f|]; [rewrite iteration_read; reflexivity|].
  destruct (Nat.le_gt_cases max_failures (S (consecutive_failures l)))
    as [Hge|Hlt].
  - rewrite (iteration_reconnect _ _ _ Hge). reflexivity.
  - rewrite (iteration_backoff _ _ _ Hlt). reflexivity.
Qed.







End Facts.

(** ** Instances *)

Lemma short_stalls_never_reconnect_witness :
  delivered
    (trace_of (loop Examples.stalling_schedule Examples.locals0
                 Examples.thread0))
  = [1; 2; 3].
Proof.
  destruct (short_stalls_never_reconnect Examples.stalling_schedule
              Examples.locals0 Examples.thread0) as (_ & _ & Hdel & _).
  - reflexivity.
  - unfold Examples.stalling_schedule. rewrite !not_elem_of_cons.
    repeat (split; [discriminate|]). apply not_elem_of_nil.
  - vm_compute. lia.
  - rewrite Hdel. reflexivity.
Defined.

Lemma reconnect_at_threshold_witness :
  outcome_of
    (iteration (Frame:=nat) None false Examples.locals_at_29 Examples.thread0)
  = Ok {| cap := {| cap_no := 1; isOpened := false |};
          consecutive_failures := 0 |}.
Proof.
  destruct (reconnect_at_threshold (Frame:=nat) Examples.thread0
              Examples.locals_at_29 false [] 2) as (Hit & _).
  - reflexivity.
  - vm_compute. lia.
  - rewrite Hit. reflexivity.
Defined.

End IngestFacts.

(** * More facts about the dispatcher *)
Module DispatcherExtra.
Import Dispatcher.

(** ** Construction *)

Lemma construction_facts (dev : Device) (ip user pass : string) (port : Z)
    (info : DeviceInfo) (p : Profile) (others : list Profile) :
  accepts dev info p others ->
  exists self tr,
    __init__ dev ip user pass port tt = (Ok self, tt, tr)
    /\ token self = profile_token p
    /\ velocities self = velocities_table.
Proof.
  intros (Hc & Hi & Hp & Hm & Hps).
  destruct dev as [c di ptz media ps]. cbn in Hc, Hi, Hp, Hm, Hps. subst.
  eexists. eexists. split; [reflexivity|]. split; reflexivity.
Qed.

(** X1.  The constructor returns an object exactly when every one of its
    round trips succeeds and the device lists at least one profile.  The
    object then carries the token of the first profile listed, whatever
    follows it, in its session state and in both prepared requests, holds
    the velocity table, and is active; the HTTP session is created once,
    and the keep-alive thread is started once, after it. *)
Theorem construction_succeeds_iff (dev : Device) (ip user pass : string)
    (port : Z) :
  (forall info p others,
     accepts dev info p others ->
     exists self,
       __init__ dev ip user pass port tt
       = (Ok self, tt,
          [ Print (MsgConnecting ip port);
            OnvifCamera ip port user pass;
            GetDeviceInformation;
            Print (MsgConnected (Manufacturer info) (Model info));
            Print (MsgFirmware (FirmwareVersion info));
            CreatePtzService; CreateMediaService; GetProfiles;
            Print (MsgUsingProfile (profile_token p));
            SessionNew;
            CreateType "ContinuousMove"; CreateType "Stop";
            ThreadStartKeepAlive;
            Print MsgUltraMode ])
       /\ token self = profile_token p
       /\ requests_carry_token self
       /\ cm_Velocity (move_request self) = None
       /\ velocities self = velocities_table
       /\ keep_alive_active self = true
       /\ ptz_url self = {| host := ip; uport := port; path := "/onvif/PTZ" |})
  /\ (forall self,
        outcome_of (__init__ dev ip user pass port tt) = Ok self ->
        exists info p others, accepts dev info p others).
Proof.
  split.
  - intros info p others (Hc & Hi & Hp & Hm & Hps).
    destruct dev as [c di ptz media ps]. cbn in Hc, Hi, Hp, Hm, Hps. subst.
    eexists. split; [reflexivity|]. cbn.
    repeat split; reflexivity.
  - intros self. destruct dev as [c di ptz media ps].
    unfold __init__, accepts, outcome_of, Mon.bind, Mon.emit, Mon.call,
      Mon.raise, Mon.ret.
    cbn [connects device_information ptz_service media_service profiles].
    destruct c as [[]|e1]; [|discriminate].
    destruct di as [info|e2]; [|discriminate].
    destruct ptz as [[]|e3]; [|discriminate].
    destruct media as [[]|e4]; [|discriminate].
    destruct ps as [[|p others]|e5]; [discriminate| |discriminate].
    intros _. exists info, p, others. repeat split; reflexivity.
Qed.

(** ** The generic move *)

Lemma exceeds_dead_zone_true (x : Q) :
  exceeds_dead_zone x = true <-> (dead_zone < Qabs x)%Q.
Proof.
  unfold exceeds_dead_zone. destruct (Qlt_le_dec dead_zone (Qabs x)).
  - tauto.
  - split; [discriminate|]. intros H. exfalso.
    apply (Qlt_not_le _ _ H). assumption.
Qed.

Lemma exceeds_dead_zone_false (x : Q) :
  exceeds_dead_zone x = false <-> (Qabs x <= dead_zone)%Q.
Proof.
  unfold exceeds_dead_zone. destruct (Qlt_le_dec dead_zone (Qabs x)).
  - split; [discriminate|]. intros H. exfalso.
    apply (Qlt_not_le _ _ q). assumption.
  - tauto.
Qed.

Lemma move_run (self : Self) (pan tilt zoom : Q) :
  move pan tilt zoom self
  = (Ok tt, self,
     if exceeds_dead_zone pan || exceeds_dead_zone tilt
     then [ThreadStart (TaskSendRaw (SoapMove (token self) pan tilt zoom))]
     else if exceeds_dead_zone zoom
          then [ThreadStart (TaskSendRaw (SoapMove (token self) 0 0 zoom))]
          else []).
Proof.
  unfold move, Mon.bind, Mon.get, Mon.emit, Mon.ret.
  destruct (exceeds_dead_zone pan || exceeds_dead_zone tilt);
    [reflexivity|].
  destruct (exceeds_dead_zone zoom); reflexivity.
Qed.

(** X2.  [move] never raises and never writes to the object.  It hands no
    envelope to a thread exactly when the three speeds are all within the
    dead zone of 0.01.  When the pan or the tilt speed is outside it, the
    three speeds go into the envelope as given, without clamping; when only
    the zoom speed is outside it, the envelope has pan and tilt 0, so a
    small pan or tilt is dropped. *)
Theorem move_dead_zone (self : Self) (pan tilt zoom : Q) :
  outcome_of (move pan tilt zoom self) = Ok tt
  /\ state_of (move pan tilt zoom self) = self
  /\ (envelopes (trace_of (move pan tilt zoom self)) = []
      <-> (Qabs pan <= dead_zone /\ Qabs tilt <= dead_zone
           /\ Qabs zoom <= dead_zone)%Q)
  /\ ((dead_zone < Qabs pan \/ dead_zone < Qabs tilt)%Q ->
      trace_of (move pan tilt zoom self)
      = [ThreadStart (TaskSendRaw (SoapMove (token self) pan tilt zoom))])
  /\ ((Qabs pan <= dead_zone)%Q -> (Qabs tilt <= dead_zone)%Q ->
      (dead_zone < Qabs zoom)%Q ->
      trace_of (move pan tilt zoom self)
      = [ThreadStart (TaskSendRaw (SoapMove (token self) 0 0 zoom))]).
Proof.
  rewrite move_run. unfold outcome_of, state_of, trace_of.
  destruct (exceeds_dead_zone pan) eqn:Hp;
    destruct (exceeds_dead_zone tilt) eqn:Ht;
    destruct (exceeds_dead_zone zoom) eqn:Hz;
    cbn [orb fst snd app envelopes omap];
    repeat match goal with
           | H : exceeds_dead_zone _ = true |- _ =>
               apply exceeds_dead_zone_true in H
           | H : exceeds_dead_zone _ = false |- _ =>
               apply exceeds_dead_zone_false in H
           end;
    repeat split; try reflexivity; intros;
    repeat match goal with
           | H : _ /\ _ |- _ => destruct H
           | H : _ \/ _ |- _ => destruct H
           end;
    try reflexivity; try discriminate; try lra; try (exfalso; lra).
Qed.

(** ** Timed moves *)

Lemma timed_move_run (self : Self) (d : string) (speed duration : Q) :
  timed_move d speed duration self
  = match velocities self !! d with
    | None => (Raise (KeyError d), self, [])
    | Some v =>
        (Ok tt, self,
         ThreadStart
           (TaskSendRaw
              (SoapMove (token self) (pt_x (PanTilt v) * speed)
                 (pt_y (PanTilt v) * speed) (z_x (Zoom v) * speed)))
         :: if Qlt_le_dec 0 duration
            then [Sleep duration;
                  ThreadStart (TaskSendRaw (SoapStop (token self)))]
            else [])
    end.
Proof.
  unfold timed_move. unfold Mon.bind at 1.
  destruct (velocities self !! d) as [v|] eqn:Hv.
  - rewrite (DispatcherFacts.move_instant_found _ _ _ _ Hv).
    destruct (Qlt_le_dec 0 duration); reflexivity.
  - rewrite (DispatcherFacts.move_instant_missing _ _ _ Hv). reflexivity.
Qed.

(** X3.  On a constructed object, each of the six timed moves ([pan_left]
    ...  [zoom_out]) hands the move envelope of [move_instant] to a thread;
    with a positive duration it then sleeps that long and hands over a stop
    envelope; with a zero or negative duration it returns after the move
    alone, so no stop is ever sent for it. *)
Theorem timed_move_stops_iff_positive (self : Self) (d : string)
    (speed duration : Q) :
  velocities self = velocities_table ->
  d ∈ directions ->
  exists envelope,
    envelopes (trace_of (move_instant d speed self)) = [envelope]
    /\ ((0 < duration)%Q ->
        timed_move d speed duration self
        = (Ok tt, self,
           [ ThreadStart (TaskSendRaw envelope);
             Sleep duration;
             ThreadStart (TaskSendRaw (SoapStop (token self))) ]))
    /\ ((duration <= 0)%Q ->
        timed_move d speed duration self
        = (Ok tt, self, [ThreadStart (TaskSendRaw envelope)])).
Proof.
  intros Htable Hd. apply DispatcherFacts.table_lookup_valid in Hd.
  rewrite <- Htable in Hd. destruct Hd as [v Hv].
  eexists. rewrite timed_move_run, Hv.
  rewrite (DispatcherFacts.move_instant_found _ _ _ _ Hv).
  split; [reflexivity|].
  destruct (Qlt_le_dec 0 duration) as [Hpos|Hle]; split; intros H;
    first [reflexivity | exfalso; lra].
Qed.

Lemma timed_move_stops_iff_positive_witness :
  envelopes (trace_of (pan_left (1 # 2) 0 Examples.camera0))
  = [SoapMove "Profile_1" (-1 * (1 # 2)) (0 * (1 # 2)) (0 * (1 # 2))].
Proof.
  destruct (timed_move_stops_iff_positive Examples.camera0 "left" (1 # 2) 0)
    as (envelope & Henv & _ & Hzero).
  - reflexivity.
  - apply list_elem_of_here.
  - unfold pan_left. rewrite Hzero by lra.
    injection Henv as <-. reflexivity.
Defined.

(** ** Sequences of calls *)

Lemma run_command_state {R} (c : command R) (self : Self) :
  state_of (run_command c self)
  = match c with
    | CallMoveFast _ d m =>
        match velocities self !! d with
        | Some v =>
            set_move_request
              {| cm_ProfileToken := cm_ProfileToken (move_request self);
                 cm_Velocity := Some (scaled v m) |} self
        | None => self
        end
    | _ => self
    end.
Proof.
  destruct c as [d m|moved d m| |stopped|p t z|preset speed|d m duration];
    cbn [run_command].
  - destruct (velocities self !! d) as [v|] eqn:Hv.
    + rewrite (DispatcherFacts.move_instant_found _ _ _ _ Hv). reflexivity.
    + rewrite (DispatcherFacts.move_instant_missing _ _ _ Hv). reflexivity.
  - destruct (velocities self !! d) as [v|] eqn:Hv.
    + rewrite (DispatcherFacts.move_fast_found moved _ _ _ _ Hv). reflexivity.
    + rewrite (DispatcherFacts.move_fast_missing moved _ _ _ Hv). reflexivity.
  - reflexivity.
  - reflexivity.
  - rewrite move_run. reflexivity.
  - reflexivity.
  - rewrite timed_move_run. destruct (velocities self !! d); reflexivity.
Qed.

Lemma run_commands_cons {R} (c : command R) (cs : list (command R))
    (self : Self) :
  run_commands (c :: cs) self
  = ((run_commands cs (state_of (run_command c self))).1,
     trace_of (run_command c self)
     ++ (run_commands cs (state_of (run_command c self))).2).
Proof.
  cbn [run_commands]. unfold state_of, trace_of.
  destruct (run_command c self) as [[r s1] t1]. cbn [fst snd].
  destruct (run_commands cs s1) as [s2 t2]. reflexivity.
Qed.

(** X4.  After any sequence of calls, the velocity held by the shared
    [move_request] is the one asked for by the last [move_fast] whose
    direction is in the table: a later [move_fast] overwrites an earlier
    one, a [move_fast] with an unknown direction leaves it alone, and no
    other operation touches it. *)
Theorem last_move_fast_wins {R} (cs : list (command R)) (self : Self) :
  cm_Velocity (move_request (run_commands cs self).1)
  = last_fast_velocity (velocities self) cs (cm_Velocity (move_request self))
  /\ velocities (run_commands cs self).1 = velocities self.
Proof.
  revert self. induction cs as [|c cs IH]; intros self; [split; reflexivity|].
  rewrite run_commands_cons. cbn [fst].
  destruct (IH (state_of (run_command c self))) as [IH1 IH2].
  rewrite IH1, IH2, run_command_state.
  destruct c as [d m|moved d m| |stopped|p t z|preset speed|d m duration];
    cbn [last_fast_velocity]; try (split; reflexivity).
  destruct (velocities self !! d) as [v|]; split; reflexivity.
Qed.

(** Every effect of the trace that carries a token carries [tok]. *)
Lemma run_command_tokens {R} (c : command R) (self : Self) :
  requests_carry_token self ->
  Forall (fun e => forall t, token_sent e = Some t -> t = token self)
    (trace_of (run_command c self)).
Proof.
  intros [Hmove Hstop].
  destruct c as [d m|moved d m| |stopped|p t z|preset speed|d m duration];
    cbn [run_command].
  - destruct (velocities self !! d) as [v|] eqn:Hv.
    + rewrite (DispatcherFacts.move_instant_found _ _ _ _ Hv).
      repeat constructor. cbn. congruence.
    + rewrite (DispatcherFacts.move_instant_missing _ _ _ Hv). constructor.
  - destruct (velocities self !! d) as [v|] eqn:Hv.
    + rewrite (DispatcherFacts.move_fast_found moved _ _ _ _ Hv).
      repeat constructor. cbn. congruence.
    + rewrite (DispatcherFacts.move_fast_missing moved _ _ _ Hv). constructor.
  - repeat constructor. cbn. congruence.
  - repeat constructor. cbn. congruence.
  - rewrite move_run. unfold trace_of. cbn [snd].
    destruct (exceeds_dead_zone p || exceeds_dead_zone t);
      [|destruct (exceeds_dead_zone z)];
      repeat constructor; cbn; congruence.
  - repeat constructor; cbn; congruence.
  - rewrite timed_move_run. destruct (velocities self !! d); [|constructor].
    unfold trace_of. cbn [snd].
    destruct (Qlt_le_dec 0 duration); repeat constructor; cbn; congruence.
Qed.

Lemma run_command_keeps_token {R} (c : command R) (self : Self) :
  requests_carry_token self ->
  token (state_of (run_command c self)) = token self
  /\ requests_carry_token (state_of (run_command c self)).
Proof.
  intros Hreq. rewrite run_command_state.
  destruct c as [d m|moved d m| |stopped|p t z|preset speed|d m duration];
    try (split; [reflexivity|exact Hreq]).
  destruct (velocities self !! d); [|split; [reflexivity|exact Hreq]].
  destruct Hreq as [Hmove Hstop]. split; [reflexivity|].
  split; [exact Hmove|exact Hstop].
Qed.

(** X5.  On an object whose prepared requests carry its profile token, as
    the constructor leaves them, any sequence of calls (moves of the three
    kinds, stops of both kinds, presets, timed moves; failed or not) keeps
    the token and that property, and everything the calls hand to a thread
    or send themselves is addressed to that one token. *)
Theorem dispatched_token_constant {R} (cs : list (command R)) (self : Self) :
  requests_carry_token self ->
  token (run_commands cs self).1 = token self
  /\ requests_carry_token (run_commands cs self).1
  /\ Forall (fun e => forall t, token_sent e = Some t -> t = token self)
       (run_commands cs self).2.
Proof.
  revert self. induction cs as [|c cs IH]; intros self Hreq.
  - split; [reflexivity|]. split; [exact Hreq|constructor].
  - rewrite run_commands_cons. cbn [fst snd].
    destruct (run_command_keeps_token c self Hreq) as [Htok Hreq'].
    destruct (IH _ Hreq') as (IH1 & IH2 & IH3).
    split; [congruence|]. split; [exact IH2|].
    apply Forall_app. split.
    + apply run_command_tokens, Hreq.
    + rewrite <- Htok. exact IH3.
Qed.

Lemma dispatched_token_constant_witness :
  token
    (run_commands
       [ CallMoveFast (Raise (TransportError Timeout) : result unit) "up" 1;
         CallMoveInstant "sideways" 1; CallStop (Ok tt);
         CallGotoPreset "3" 1 ]
       Examples.camera0).1
  = "Profile_1".
Proof.
  apply (dispatched_token_constant
           [ CallMoveFast (Raise (TransportError Timeout) : result unit) "up" 1;
             CallMoveInstant "sideways" 1; CallStop (Ok tt);
             CallGotoPreset "3" 1 ] Examples.camera0).
  split; reflexivity.
Defined.

(** ** Keep-alive after shutdown *)



(** ** Calls that wait for the device *)

(** X12.  The two calls that talk to the device on the calling thread,
    [stop] and [move_fast], and the thread body [_send_raw], hide the
    outcome of the exchange altogether: with a failed exchange they return
    the same value, leave the same object and make the same single call as
    with a successful one, so a caller cannot tell whether the command
    reached the camera, and nothing is retried. *)
Theorem send_outcome_unobservable {R1 R2} (o1 : result R1) (o2 : result R2)
    (self : Self) (d : string) (m : Q) (soap_data : soap) :
  stop o1 self = stop o2 self
  /\ stop o1 self = (Ok tt, self, [PtzStop (stop_request self)])
  /\ move_fast o1 d m self = move_fast o2 d m self
  /\ length (network_calls (trace_of (move_fast o1 d m self))) <= 1
  /\ _send_raw o1 soap_data self = _send_raw o2 soap_data self.
Proof.
  split; [reflexivity|]. split; [reflexivity|].
  destruct (velocities self !! d) as [v|] eqn:Hv.
  - rewrite (DispatcherFacts.move_fast_found o1 _ _ _ _ Hv),
      (DispatcherFacts.move_fast_found o2 _ _ _ _ Hv).
    split; [reflexivity|]. split; [|reflexivity].
    unfold network_calls, trace_of. cbn [snd].
    rewrite filter_cons, filter_nil. cbn [is_network_call].
    rewrite decide_True by reflexivity. cbn [length]. lia.
  - rewrite (DispatcherFacts.move_fast_missing o1 _ _ _ Hv),
      (DispatcherFacts.move_fast_missing o2 _ _ _ Hv).
    split; [reflexivity|]. split; [|reflexivity].
    unfold network_calls, trace_of. cbn [snd].
    rewrite filter_nil. cbn [length]. lia.
Qed.

End DispatcherExtra.

(** * More facts about the ingest loop *)
Module IngestExtra.
Import Ingest.
Section Extra.
Context {Frame : Type}.
Implicit Types (self : VideoThread) (l : locals) (f : Frame).
Implicit Types (sched : list (@event Frame)).

(** ** Stepping over the calls *)

Lemma prefixed_nil {A} (r : result A * VideoThread * list (@effect Frame)) :
  prefixed [] r = r.
Proof. destruct r as [[o s] t]. reflexivity. Qed.

Lemma loop_exit self l (read : option Frame) (reopen_ok : bool) sched :
  _run_flag self = false ->
  loop (Pass read reopen_ok :: sched) l self = (Ok (Exited, l), self, []).
Proof.
  intros Hrun. cbn [loop]. unfold Mon.bind, Mon.get. rewrite Hrun.
  reflexivity.
Qed.


Lemma loop_start_recording self l (filename : string) sched :
  recording self = true ->
  loop (CallStartRecording filename :: sched) l self = loop sched l self.
Proof.
  intros Hrec.
  rewrite IngestFacts.loop_call_start,
    (IngestFacts.start_recording_when_recording _ _ Hrec).
  apply prefixed_nil.
Qed.








(** ** Handles and sinks are released *)






(** ** What gets recorded *)




(** ** Starting and stopping a recording *)

Lemma loop_keeps_recording sched :
  forall l self,
    recording self = true ->
    CallStop ∉ sched ->
    CallStopRecording ∉ sched ->
    state_of (loop sched l self) = self.
Proof.
  induction sched as [|ev sched IH]; intros l self Hrec Hstop Hstoprec;
    [reflexivity|].
  apply not_elem_of_cons in Hstop as [Hev1 Hstop].
  apply not_elem_of_cons in Hstoprec as [Hev2 Hstoprec].
  destruct ev as [read reopen_ok|filename| |]; try congruence.
  - destruct (_run_flag self) eqn:Hrun.
    + rewrite (IngestFacts.loop_pass _ _ _ _ _ Hrun).
      pose proof (IngestFacts.iteration_state self l read reopen_ok) as Hst.
      destruct (iteration read reopen_ok l self) as [[[l'|e] s] t];
        unfold state_of in Hst; cbn [fst snd] in Hst; subst s;
        [|reflexivity].
      rewrite IngestFacts.state_prefixed. apply IH; assumption.
    + rewrite (loop_exit _ _ _ _ _ Hrun). reflexivity.
  - rewrite (loop_start_recording _ _ _ _ Hrec). apply IH; assumption.
Qed.

(** X9.  A recording started on an idle thread object with a file name is
    ended by the next [stop_recording], whatever passes and repeated
    [start_recording] calls (with other names) come in between: that call
    returns the name the recording was started with, releases the sink
    opened for that name, and leaves the object idle with no sink. *)
Theorem recording_round_trip self l (filename : string) sched :
  recording self = false ->
  CallStop ∉ sched ->
  CallStopRecording ∉ sched ->
  let w := {| vw_filename := filename; vw_fourcc := "mp4v";
              vw_fps := 20; vw_size := (1920, 1080)%Z |} in
  let started := state_of (start_recording (Frame:=Frame) filename self) in
  let later := state_of (loop sched l started) in
  sinks_opened (trace_of (start_recording (Frame:=Frame) filename self)) = [w]
  /\ stop_recording (Frame:=Frame) later
     = (Ok (Some filename),
        set_video_writer None (set_recording false started),
        [WriterRelease w; Print (MsgStoppedRecording (Some filename))])
  /\ recording (state_of (stop_recording (Frame:=Frame) later)) = false
  /\ video_writer (state_of (stop_recording (Frame:=Frame) later)) = None.
Proof.
  intros Hrec Hstop Hstoprec. cbv zeta.
  rewrite (IngestFacts.start_recording_when_idle _ _ Hrec).
  pose proof (loop_keeps_recording sched l
                (set_recording_filename (Some filename)
                   (set_recording true
                      (set_video_writer
                         (Some {| vw_filename := filename;
                                  vw_fourcc := "mp4v"; vw_fps := 20;
                                  vw_size := (1920, 1080)%Z |}) self)))
                eq_refl Hstop Hstoprec) as Hkeep.
  unfold state_of, trace_of in *. cbn [fst snd] in *. rewrite Hkeep.
  split; [reflexivity|].
  rewrite IngestFacts.stop_recording_when_recording by reflexivity.
  repeat split; reflexivity.
Qed.
(** ** Delivery *)




(** ** When the loop reconnects *)

Lemma start_recording_no_reopen self (filename : string) :
  reopens (trace_of (start_recording (Frame:=Frame) filename self)) = 0.
Proof.
  destruct (recording self) eqn:Hrec.
  - rewrite (IngestFacts.start_recording_when_recording _ _ Hrec).
    reflexivity.
  - rewrite (IngestFacts.start_recording_when_idle _ _ Hrec). reflexivity.
Qed.

Lemma stop_recording_no_reopen self :
  reopens (trace_of (stop_recording (Frame:=Frame) self)) = 0.
Proof.
  destruct (recording self) eqn:Hrec.
  - rewrite (IngestFacts.stop_recording_when_recording _ Hrec).
    destruct (video_writer self); reflexivity.
  - rewrite (IngestFacts.stop_recording_when_idle _ Hrec). reflexivity.
Qed.

Lemma routed_no_reopen self f : reopens (routed self f) = 0.
Proof.
  unfold routed. destruct (recording self), (video_writer self); reflexivity.
Qed.

(** X11.  On a running thread object that is not stopped, with the counter
    below 30 at the start, the loop reopens the transport if and only if
    some streak of consecutive failed reads (counting the failures already
    on the counter) reaches 30; and between passes the counter is always
    below 30. *)
Theorem reconnects_iff_long_stall sched :
  forall l self,
    _run_flag self = true ->
    CallStop ∉ sched ->
    consecutive_failures l < max_failures ->
    (reopens (trace_of (loop sched l self)) = 0
     <-> longest_streak (consecutive_failures l) (reads_of sched)
         < max_failures)
    /\ (forall l',
          outcome_of (loop sched l self) = Ok (StillRunning, l') ->
          consecutive_failures l' < max_failures).
Proof.
  induction sched as [|ev sched IH]; intros l self Hrun Hstop Hlt.
  - split.
    + cbn [longest_streak reads_of omap list_omap]. split; auto.
    + intros l' H. injection H as <-. exact Hlt.
  - apply not_elem_of_cons in Hstop as [Hev Hstop].
    destruct ev as [[f|] reopen_ok|filename| |]; try congruence.
    + change (reads_of (Pass (Some f) reopen_ok :: sched))
        with (Some f :: reads_of sched).
      cbn [longest_streak].
      rewrite (IngestFacts.loop_pass_read _ _ _ _ _ Hrun).
      rewrite IngestFacts.outcome_prefixed, IngestFacts.trace_prefixed.
      change (CaptureRead (cap l) :: Emit f :: routed self f)
        with ([CaptureRead (cap l); Emit f] ++ routed self f).
      rewrite !IngestFacts.reopens_app, routed_no_reopen.
      destruct (IH {| cap := cap l; consecutive_failures := 0 |} self
                  Hrun Hstop) as [Hiff Hcnt].
      { cbn [consecutive_failures]. unfold max_failures. lia. }
      cbn [consecutive_failures] in Hiff.
      split; [|exact Hcnt].
      change (reopens [CaptureRead (cap l); Emit f]) with 0.
      cbn [Nat.add]. rewrite Hiff. lia.
    + change (reads_of (Pass None reopen_ok :: sched))
        with (None :: reads_of sched).
      cbn [longest_streak].
      destruct (Nat.le_gt_cases max_failures (S (consecutive_failures l)))
        as [Hge|Hbelow].
      * rewrite (IngestFacts.loop_pass_reconnect _ _ _ _ Hrun Hge).
        rewrite IngestFacts.outcome_prefixed, IngestFacts.trace_prefixed,
          IngestFacts.reopens_app.
        match goal with |- context [loop sched ?l1 self] =>
          destruct (IH l1 self Hrun Hstop) as [Hiff Hcnt] end.
        { cbn [consecutive_failures]. unfold max_failures. lia. }
        split; [|exact Hcnt].
        pose proof (IngestFacts.streak_at_least
                      (S (consecutive_failures l)) (reads_of sched)) as Hs.
        change (reopens (reconnect_trace self l reopen_ok)) with 1.
        split; intros H; [discriminate H | lia].
      * rewrite (IngestFacts.loop_pass_backoff _ _ _ _ Hrun Hbelow).
        rewrite IngestFacts.outcome_prefixed, IngestFacts.trace_prefixed,
          IngestFacts.reopens_app.
        match goal with |- context [loop sched ?l1 self] =>
          destruct (IH l1 self Hrun Hstop) as [Hiff Hcnt] end.
        { exact Hbelow. }
        cbn [consecutive_failures] in Hiff.
        split; [|exact Hcnt].
        match goal with |- context [reopens ?t + _] =>
          change (reopens t) with 0 end.
        cbn [Nat.add]. exact Hiff.
    + change (reads_of (CallStartRecording filename :: sched))
        with (reads_of sched).
      rewrite IngestFacts.loop_call_start, IngestFacts.outcome_prefixed,
        IngestFacts.trace_prefixed, IngestFacts.reopens_app,
        start_recording_no_reopen.
      apply IH; [|assumption|assumption].
      destruct (IngestFacts.start_recording_quiet (Frame:=Frame) self filename)
        as (Hflag & _). congruence.
    + change (reads_of (CallStopRecording :: sched)) with (reads_of sched).
      rewrite IngestFacts.loop_call_stop, IngestFacts.outcome_prefixed,
        IngestFacts.trace_prefixed, IngestFacts.reopens_app,
        stop_recording_no_reopen.
      apply IH; [|assumption|assumption].
      destruct (IngestFacts.stop_recording_quiet (Frame:=Frame) self)
        as (Hflag & _). congruence.
Qed.

(** ** One handle and one sink at a time *)




End Extra.

(** ** Instances *)

Lemma recording_round_trip_witness :
  outcome_of
    (stop_recording (Frame:=nat)
       (state_of
          (loop Examples.recording_schedule Examples.locals0
             (state_of
                (start_recording (Frame:=nat) "first.mp4" Examples.thread0)))))
  = Ok (Some "first.mp4").
Proof.
  destruct (recording_round_trip (Frame:=nat) Examples.thread0
              Examples.locals0 "first.mp4" Examples.recording_schedule)
    as (_ & Hstop & _).
  - reflexivity.
  - unfold Examples.recording_schedule. rewrite !not_elem_of_cons.
    repeat (split; [discriminate|]). apply not_elem_of_nil.
  - unfold Examples.recording_schedule. rewrite !not_elem_of_cons.
    repeat (split; [discriminate|]). apply not_elem_of_nil.
  - rewrite Hstop. reflexivity.
Defined.


Lemma reconnects_iff_long_stall_witness :
  reopens
    (trace_of
       (loop Examples.stalling_schedule Examples.locals0 Examples.thread0))
  = 0.
Proof.
  destruct (reconnects_iff_long_stall Examples.stalling_schedule
              Examples.locals0 Examples.thread0) as [Hiff _].
  - reflexivity.
  - unfold Examples.stalling_schedule. rewrite !not_elem_of_cons.
    repeat (split; [discriminate|]). apply not_elem_of_nil.
  - vm_compute. lia.
  - apply Hiff. vm_compute. lia.
Defined.

End IngestExtra.

(** * More facts about the GUI handlers *)
Module GuiExtra.
Import Dispatcher.

Lemma set_camera_same (gui : Gui.CameraGUI) (cam : Self) :
  Gui.camera gui = Some cam -> Gui.set_camera (Some cam) gui = gui.
Proof. destruct gui. cbn. intros ->. reflexivity. Qed.

Lemma zoom_directions (d : string) :
  d ∈ directions ->
  Gui.contains "zoom" d
  = match named_axis d with Some ZoomAxis => true | _ => false end.
Proof.
  intros Hd. apply DispatcherFacts.directions_cases in Hd.
  destruct Hd as [-> | [-> | [-> | [-> | [-> | ->]]]]]; reflexivity.
Qed.

(** X13.  The press handler [start_move] never raises.  Without a camera
    it does nothing.  With a constructed camera and one of the six
    directions it hands one move envelope to a thread, scaled by the zoom
    speed for [zoom_in] and [zoom_out] and by the slider speed for the four
    pan and tilt directions; with any other direction it sends nothing and
    prints the [KeyError].  In each case the GUI state is unchanged. *)
Theorem start_move_dispatch (gui : Gui.CameraGUI) (d : string) :
  outcome_of (Gui.start_move d gui) = Ok tt
  /\ state_of (Gui.start_move d gui) = gui
  /\ (Gui.camera gui = None -> trace_of (Gui.start_move d gui) = [])
  /\ (forall cam,
        Gui.camera gui = Some cam ->
        velocities cam = velocities_table ->
        (d ∉ directions ->
         trace_of (Gui.start_move d gui) = [Gui.PrintMoveError (KeyError d)])
        /\ (d ∈ directions ->
            exists v,
              velocities_table !! d = Some v
              /\ let speed :=
                   match named_axis d with
                   | Some ZoomAxis => Gui.zoom_speed gui
                   | _ => Gui.ptz_speed gui
                   end in
                 trace_of (Gui.start_move d gui)
                 = [Gui.Cam
                      (ThreadStart
                         (TaskSendRaw
                            (SoapMove (token cam)
                               (pt_x (PanTilt v) * speed)
                               (pt_y (PanTilt v) * speed)
                               (z_x (Zoom v) * speed))))])).
Proof.
  unfold Gui.start_move, Mon.bind, Mon.get.
  destruct (Gui.camera gui) as [cam|] eqn:Hcam.
  - unfold Mon.try_except, Gui.on_camera, Mon.emit.
    destruct (velocities cam !! d) as [v|] eqn:Hv.
    + rewrite (DispatcherFacts.move_instant_found _ _ _ _ Hv).
      rewrite (set_camera_same _ _ Hcam).
      split; [reflexivity|]. split; [reflexivity|].
      split; [intros H; discriminate H|].
      intros cam' [= <-] Htable. rewrite Htable in Hv. split.
      * intros Hd. apply DispatcherFacts.table_lookup_invalid in Hd.
        congruence.
      * intros Hd. exists v. split; [exact Hv|]. cbv zeta.
        rewrite (zoom_directions d Hd).
        destruct (named_axis d) as [[]|]; reflexivity.
    + rewrite (DispatcherFacts.move_instant_missing _ _ _ Hv).
      rewrite (set_camera_same _ _ Hcam).
      split; [reflexivity|]. split; [reflexivity|].
      split; [intros H; discriminate H|].
      intros cam' [= <-] Htable. rewrite Htable in Hv. split.
      * intros _. reflexivity.
      * intros Hd. apply DispatcherFacts.table_lookup_valid in Hd.
        destruct Hd as [v Hv']. congruence.
  - split; [reflexivity|]. split; [reflexivity|]. split; [reflexivity|].
    intros cam H. discriminate H.
Qed.

(** ** Connecting and disconnecting *)

Lemma toggle_connection_connects (dev : Device) (gui : Gui.CameraGUI)
    (cam : Self) (tr : list effect) :
  Gui.is_connected gui = false ->
  __init__ dev (Gui.camera_ip gui) (Gui.camera_user gui)
    (Gui.camera_pass gui) 80 tt = (Ok cam, tt, tr) ->
  Gui.toggle_connection dev gui
  = (Ok tt,
     Gui.set_is_connected true
       (Gui.set_video_thread true (Gui.set_camera (Some cam) gui)),
     Gui.StatusLabel "Connecting..."
     :: map Gui.Cam tr
     ++ [ Gui.VideoThreadStart; Gui.ConnectButton "Disconnect";
          Gui.StatusLabel "Connected"; Gui.SetControlsEnabled true ]).
Proof.
  intros Hconn Hinit.
  unfold Gui.toggle_connection, Mon.bind, Mon.get, Mon.try_except,
    Gui.construct, Mon.emit, Mon.modify.
  rewrite Hconn, Hinit. reflexivity.
Qed.

Lemma toggle_connection_disconnects (dev : Device) (gui : Gui.CameraGUI) :
  Gui.is_connected gui = true ->
  Gui.toggle_connection dev gui
  = (Ok tt,
     Gui.set_is_connected false
       (Gui.set_camera None
          (if Gui.video_thread gui then Gui.set_video_thread false gui
           else gui)),
     (if Gui.video_thread gui then [Gui.VideoThreadStop] else [])
     ++ [ Gui.ConnectButton "Connect Camera";
          Gui.StatusLabel "Disconnected";
          Gui.VideoLabel "No Video Feed";
          Gui.SetControlsEnabled false ]).
Proof.
  intros Hconn.
  unfold Gui.toggle_connection, Mon.bind, Mon.get, Mon.emit, Mon.modify,
    Mon.ret.
  rewrite Hconn. cbn [negb].
  destruct (Gui.video_thread gui); reflexivity.
Qed.

(** X14.  Connecting to a device that answers every round trip and then
    disconnecting is a round trip on the GUI state.  After the first
    toggle the GUI holds a camera object with the device's first profile
    token and is connected, with the video thread started; after the second
    it holds no camera, is disconnected and has stopped the video thread,
    with the speeds and the address untouched, so a later [start_move] does
    nothing.  The disconnect makes no call on the camera object: it does
    not close the HTTP session or end the keep-alive thread. *)
Theorem connect_then_disconnect (dev dev' : Device) (gui : Gui.CameraGUI)
    (info : DeviceInfo) (p : Profile) (others : list Profile) (d : string) :
  accepts dev info p others ->
  Gui.is_connected gui = false ->
  Gui.camera gui = None ->
  Gui.video_thread gui = false ->
  let g1 := state_of (Gui.toggle_connection dev gui) in
  let second := Gui.toggle_connection dev' g1 in
  (exists cam,
     Gui.camera g1 = Some cam
     /\ token cam = profile_token p
     /\ velocities cam = velocities_table)
  /\ Gui.is_connected g1 = true
  /\ Gui.video_thread g1 = true
  /\ state_of second = gui
  /\ trace_of second
     = [ Gui.VideoThreadStop; Gui.ConnectButton "Connect Camera";
         Gui.StatusLabel "Disconnected"; Gui.VideoLabel "No Video Feed";
         Gui.SetControlsEnabled false ]
  /\ Gui.start_move d (state_of second) = (Ok tt, state_of second, []).
Proof.
  intros Hacc Hconn Hcam Hvt. cbv zeta.
  destruct (DispatcherExtra.construction_facts dev (Gui.camera_ip gui)
              (Gui.camera_user gui) (Gui.camera_pass gui) 80 info p others
              Hacc) as (cam & tr & Hinit & Htok & Htable).
  rewrite (toggle_connection_connects dev gui cam tr Hconn Hinit).
  unfold state_of at 1 2 3 4. cbn [fst snd].
  split; [exists cam; auto|]. split; [reflexivity|]. split; [reflexivity|].
  rewrite toggle_connection_disconnects by reflexivity.
  unfold state_of, trace_of. cbn [fst snd].
  cbn [Gui.video_thread Gui.set_is_connected Gui.set_video_thread
         Gui.set_camera app].
  assert (Gui.set_is_connected false
            (Gui.set_camera None
               (Gui.set_video_thread false
                  (Gui.set_is_connected true
                     (Gui.set_video_thread true
                        (Gui.set_camera (Some cam) gui))))) = gui) as Hback.
  { destruct gui. cbn in *. subst. reflexivity. }
  rewrite Hback. split; [reflexivity|]. split; [reflexivity|].
  unfold Gui.start_move, Mon.bind, Mon.get. rewrite Hcam. reflexivity.
Qed.

Lemma connect_then_disconnect_witness :
  state_of
    (Gui.toggle_connection Examples.rejecting_device
       (state_of (Gui.toggle_connection Examples.good_device Gui.__init__)))
  = Gui.__init__.
Proof.
  destruct (connect_then_disconnect Examples.good_device
              Examples.rejecting_device Gui.__init__
              {| Manufacturer := "Jennov"; Model := "PTZ";
                 FirmwareVersion := "1.0" |}
              {| profile_token := "Profile_1" |} [] "left")
    as (_ & _ & _ & Hback & _).
  - repeat split; reflexivity.
  - reflexivity.
  - reflexivity.
  - reflexivity.
  - exact Hback.
Defined.

End GuiExtra.
